(** * Google Sheets MCP server: a shallow embedding of [main.py]

    The development follows the source file from the bottom of its call
    graph upwards:

    - [Py]: the Python built-ins the server relies on ([str.split],
      [str.strip], [str.lower], [str.join], [list.index], insertion-ordered
      [dict]s, exceptions);
    - [Sheets]: the objects of the spreadsheet backend and the interface the
      server calls it through;
    - [Server]: [GoogleSheetsClient] and the tools registered on the MCP
      server, written in a state-and-exception monad over the backend;
    - [Mem]: an in-memory backend, used to run the tools on concrete sheets;
      [Budget]: the same with a bound on the cell writes it accepts.

    Strings are sequences of characters with code points below 256.
    Logging calls have no effect on any result and are left out, and so
    is the prompt text of [sheets_prompt]. *)

From Stdlib Require Import String Ascii List Arith ZArith Bool Lia.
From Stdlib Require Import DecimalString DecimalNat.
Import ListNotations.

Local Open Scope list_scope.
Local Open Scope string_scope.
Local Open Scope nat_scope.

(* ================================================================== *)
(** * Python built-ins *)
(* ================================================================== *)

Module Py.

(** ** Characters *)

(** [str.isspace] on one character: TAB, LF, VT, FF, CR, the four
    separators FS..US, SPACE, NEL and NBSP. *)
Definition isspace (c : ascii) : bool :=
  let n := nat_of_ascii c in
  ((9 <=? n) && (n <=? 13)) || ((28 <=? n) && (n <=? 32))
  || (n =? 133) || (n =? 160).

(** [str.lower] on one character: A..Z, and the Latin-1 capitals
    U+00C0..U+00DE except the multiplication sign U+00D7. *)
Definition lower_char (c : ascii) : ascii :=
  let n := nat_of_ascii c in
  if ((65 <=? n) && (n <=? 90))
     || ((192 <=? n) && (n <=? 222) && negb (n =? 215))
  then ascii_of_nat (n + 32) else c.

Fixpoint lower (s : string) : string :=
  match s with
  | EmptyString => EmptyString
  | String c s' => String (lower_char c) (lower s')
  end.

(** ** Splitting *)

(** [h] in front of [t] unless [h] is empty. *)
Definition cons_nonempty (h : string) (t : list string) : list string :=
  match h with
  | EmptyString => t
  | _ => h :: t
  end.

(** The token being read at the front of [s] and the tokens after it. *)
Fixpoint words (s : string) : string * list string :=
  match s with
  | EmptyString => (EmptyString, [])
  | String c s' =>
      let (h, t) := words s' in
      if isspace c then (EmptyString, cons_nonempty h t)
      else (String c h, t)
  end.

(** [s.split()]: the maximal runs of non-whitespace characters. *)
Definition split (s : string) : list string :=
  let (h, t) := words s in cons_nonempty h t.

(** The field at the front of [s] and the fields after it. *)
Fixpoint fields (sep : ascii) (s : string) : string * list string :=
  match s with
  | EmptyString => (EmptyString, [])
  | String c s' =>
      let (h, t) := fields sep s' in
      if Ascii.eqb c sep then (EmptyString, h :: t) else (String c h, t)
  end.

(** [s.split(sep)] for a one-character separator: never empty. *)
Definition split_on (sep : ascii) (s : string) : list string :=
  let (h, t) := fields sep s in h :: t.

(** [sep in s] for a one-character [sep]. *)
Fixpoint contains_char (sep : ascii) (s : string) : bool :=
  match s with
  | EmptyString => false
  | String c s' => Ascii.eqb c sep || contains_char sep s'
  end.

(** [s.split(sep, 1)] for a one-character separator, when [sep in s]:
    the text before the first [sep] and the text after it. *)
Fixpoint split1 (sep : ascii) (s : string) : string * string :=
  match s with
  | EmptyString => (EmptyString, EmptyString)
  | String c s' =>
      if Ascii.eqb c sep then (EmptyString, s')
      else let (a, b) := split1 sep s' in (String c a, b)
  end.

(** ** Stripping *)

Fixpoint lstrip (s : string) : string :=
  match s with
  | EmptyString => EmptyString
  | String c s' => if isspace c then lstrip s' else s
  end.

Fixpoint rstrip (s : string) : string :=
  match s with
  | EmptyString => EmptyString
  | String c s' =>
      match rstrip s' with
      | EmptyString => if isspace c then EmptyString else String c EmptyString
      | r => String c r
      end
  end.

(** [s.strip()] *)
Definition strip (s : string) : string := rstrip (lstrip s).

(** ** Joining, repeating, formatting *)

(** [sep.join(l)] *)
Definition join (sep : string) (l : list string) : string :=
  String.concat sep l.

(** [s * n] *)
Fixpoint repeat_str (s : string) (n : nat) : string :=
  match n with
  | 0 => EmptyString
  | S n' => s ++ repeat_str s n'
  end.

(** [str(n)] for a non-negative integer. *)
Definition str_of_nat (n : nat) : string :=
  NilEmpty.string_of_uint (Nat.to_uint n).

(** [m in s] for strings: [m] occurs in [s]. *)
Fixpoint contains (m s : string) : bool :=
  String.prefix m s
  || match s with
     | EmptyString => false
     | String _ s' => contains m s'
     end.

(** ** Lists *)

(** [x in l] *)
Fixpoint mem (x : string) (l : list string) : bool :=
  match l with
  | [] => false
  | y :: l' => String.eqb y x || mem x l'
  end.

(** [l.index(x)]: the first position of [x]; [None] stands for the
    [ValueError] Python raises when [x] is not in [l]. *)
Fixpoint index (x : string) (l : list string) : option nat :=
  match l with
  | [] => None
  | y :: l' =>
      if String.eqb y x then Some 0
      else option_map S (index x l')
  end.

(** ** Insertion-ordered dictionaries with string keys *)

Definition dict (V : Type) : Type := list (string * V).

(** [d[k] = v]: the value is replaced in place when [k] is already a
    key, and the pair is added at the end otherwise. *)
Fixpoint dict_set {V} (d : dict V) (k : string) (v : V) : dict V :=
  match d with
  | [] => [(k, v)]
  | (k', v') :: d' =>
      if String.eqb k' k then (k', v) :: d'
      else (k', v') :: dict_set d' k v
  end.

Fixpoint dict_get {V} (d : dict V) (k : string) : option V :=
  match d with
  | [] => None
  | (k', v') :: d' => if String.eqb k' k then Some v' else dict_get d' k
  end.

Definition dict_keys {V} (d : dict V) : list string := map fst d.

(** ** Exceptions *)

(** The classes the handlers of [main.py] tell apart. *)
Inductive exn_class : Type :=
| SpreadsheetNotFound
| APIError
| OtherException.

(** An exception: its class and [str(e)]. *)
Record exn : Type := Exn { exn_cls : exn_class; exn_str : string }.

Definition IndexError : exn := Exn OtherException "list index out of range".
Definition ValueError (s : string) : exn := Exn OtherException s.

Definition is_APIError (e : exn) : bool :=
  match exn_cls e with APIError => true | _ => false end.

Definition is_SpreadsheetNotFound (e : exn) : bool :=
  match exn_cls e with SpreadsheetNotFound => true | _ => false end.

(** ** Values a payload can evaluate to *)

#[warnings="-register-all"]
Inductive pyobj : Type :=
| PyStr (s : string)
| PyInt (n : Z)
| PyBool (b : bool)
| PyList (l : list pyobj)
| PyTuple (l : list pyobj)
| PyDict (d : list (string * pyobj))
| PyObject (repr : string).

(** [isinstance(v, list)] *)
Definition isinstance_list (v : pyobj) : option (list pyobj) :=
  match v with
  | PyList l => Some l
  | _ => None
  end.

Definition TypeError (s : string) : exn := Exn OtherException s.

(** [bool(v)]: empty containers, [0], [False] and the empty string are
    false. *)
Definition truthy (v : pyobj) : bool :=
  match v with
  | PyStr s => negb (String.eqb s EmptyString)
  | PyInt n => negb (Z.eqb n 0)
  | PyBool b => b
  | PyList l | PyTuple l => match l with [] => false | _ :: _ => true end
  | PyDict d => match d with [] => false | _ :: _ => true end
  | PyObject _ => true
  end.

(** [len(v)]: a [TypeError] for a value without length. *)
Definition len (v : pyobj) : (exn + nat)%type :=
  match v with
  | PyStr s => inr (String.length s)
  | PyList l | PyTuple l => inr (List.length l)
  | PyDict d => inr (List.length d)
  | PyInt _ => inl (TypeError "object of type 'int' has no len()")
  | PyBool _ => inl (TypeError "object of type 'bool' has no len()")
  | PyObject _ => inl (TypeError "object has no len()")
  end.

(** [str(n)] for an integer. *)
Definition str_of_Z (n : Z) : string := NilEmpty.string_of_int (Z.to_int n).

End Py.

(** The line feed character and the one-character string ["\n"]. *)
Definition LF : ascii := ascii_of_nat 10.
Definition nl : string := String LF EmptyString.

(* ================================================================== *)
(** * The spreadsheet backend as the server sees it *)
(* ================================================================== *)

Module Sheets.

Definition row : Type := list string.
Definition grid : Type := list row.

(** What the server reads of a [gspread] spreadsheet object. *)
Record Spreadsheet : Type := {
  sp_title : string;
  sp_id : string;
  sp_url : string
}.

(** What the server reads of a [gspread] worksheet object; the first
    field says which spreadsheet it belongs to. *)
Record Worksheet : Type := {
  ws_spreadsheet : string;
  ws_title : string;
  ws_row_count : nat;
  ws_col_count : nat
}.

(** A computation that raises or returns. *)
Definition result (A : Type) : Type := (Py.exn + A)%type.

(** A computation on the world [W] outside the process. *)
Definition M (W A : Type) : Type := W -> result A * W.

(** The calls [main.py] makes, with the world they act on. *)
Record Backend (W : Type) : Type := {
  (** lines 29-47: locate and read [credentials.json] *)
  load_credentials : M W unit;
  (** lines 54-61: [Credentials.from_service_account_file] and
      [gspread.authorize] *)
  authorize : M W unit;
  (** [client.openall()] *)
  openall : M W (list Spreadsheet);
  (** [client.open_by_key(spreadsheet_id)] *)
  open_by_key : string -> M W Spreadsheet;
  (** [spreadsheet.worksheets()] *)
  worksheets : Spreadsheet -> M W (list Worksheet);
  (** [spreadsheet.worksheet(sheet_title)] *)
  worksheet : Spreadsheet -> string -> M W Worksheet;
  (** [worksheet.get_all_values()] *)
  get_all_values : Worksheet -> M W grid;
  (** [worksheet.row_values(n)] *)
  row_values : Worksheet -> nat -> M W row;
  (** [worksheet.update(range_name, values)] *)
  update : Worksheet -> string -> list Py.pyobj -> M W unit;
  (** [worksheet.update_cell(row, col, value)] *)
  update_cell : Worksheet -> nat -> nat -> string -> M W unit
}.

Arguments load_credentials {W}.
Arguments authorize {W}.
Arguments openall {W}.
Arguments open_by_key {W}.
Arguments worksheets {W}.
Arguments worksheet {W}.
Arguments get_all_values {W}.
Arguments row_values {W}.
Arguments update {W}.
Arguments update_cell {W}.

Section Monad.
Context {W : Type}.

Definition ret {A} (a : A) : M W A := fun w => (inr a, w).

Definition raise {A} (e : Py.exn) : M W A := fun w => (inl e, w).

Definition bind {A B} (m : M W A) (k : A -> M W B) : M W B :=
  fun w =>
    match m w with
    | (inr a, w') => k a w'
    | (inl e, w') => (inl e, w')
    end.

(** [try: m  except ... as e: h e] with a handler for every class. *)
Definition try_catch {A} (m : M W A) (h : Py.exn -> M W A) : M W A :=
  fun w =>
    match m w with
    | (inr a, w') => (inr a, w')
    | (inl e, w') => h e w'
    end.

(** A pure computation that may raise. *)
Definition lift {A} (r : result A) : M W A := fun w => (r, w).

(** [for x in l: body x] *)
Fixpoint for_each {A} (l : list A) (body : A -> M W unit) : M W unit :=
  match l with
  | [] => ret tt
  | x :: l' => bind (body x) (fun _ => for_each l' body)
  end.
End Monad.

End Sheets.

Declare Scope py_scope.
Delimit Scope py_scope with py.
Notation "x <- c ;; k" := (Sheets.bind c (fun x => k))
  (at level 61, c at next level, right associativity) : py_scope.
Notation "c ;; k" := (Sheets.bind c (fun _ => k))
  (at level 61, right associativity) : py_scope.

(* ================================================================== *)
(** * The server *)
(* ================================================================== *)

Module Server.
Import Sheets.
Local Open Scope py_scope.

(** [not l] for a list *)
Definition is_empty {A} (l : list A) : bool :=
  match l with
  | [] => true
  | _ :: _ => false
  end.

(** ** [class GoogleSheetsClient], lines 26-238 *)

Module GoogleSheetsClient.

(** The dictionary [get_sheet_data] builds: each of the keys ["error"],
    ["title"] and ["data"] is present or not. *)
Record SheetData : Type := {
  sd_error : option string;
  sd_title : option string;
  sd_data : option grid
}.

Definition error_data (text : string) : SheetData :=
  {| sd_error := Some text; sd_title := None; sd_data := None |}.

Definition not_found_text : string :=
  "Spreadsheet not found. Please check the ID and sharing permissions.".

Section Methods.
Context {W : Type}.
Variable be : Backend W.

(** lines 27-82 *)
Definition __init__ : M W unit :=
  load_credentials be ;;
  authorize be ;;
  try_catch (spreadsheets <- openall be ;; ret tt)
            (fun e => if Py.is_APIError e then ret tt else raise e).

Definition sheet_info (spreadsheet : Spreadsheet) : Py.dict string :=
  [("title", sp_title spreadsheet);
   ("id", sp_id spreadsheet);
   ("url", sp_url spreadsheet)].

(** lines 86-105: the body of the [try] *)
Definition get_all_spreadsheets_body : M W (list (Py.dict string)) :=
  spreadsheets <- openall be ;;
  if is_empty spreadsheets then ret []
  else ret (map sheet_info spreadsheets).

(** lines 84-112 *)
Definition get_all_spreadsheets : M W (list (Py.dict string)) :=
  try_catch get_all_spreadsheets_body
    (fun e =>
       if Py.is_APIError e
       then ret [[("error", "API Error: " ++ Py.exn_str e)]]
       else ret [[("error", Py.exn_str e)]]).

Definition worksheet_info (worksheet : Worksheet) : Py.pyobj :=
  Py.PyDict [("title", Py.PyStr (ws_title worksheet));
             ("row_count", Py.PyInt (Z.of_nat (ws_row_count worksheet)));
             ("col_count", Py.PyInt (Z.of_nat (ws_col_count worksheet)))].

Definition error_dict (text : string) : Py.pyobj :=
  Py.PyDict [("error", Py.PyStr text)].

(** lines 117-142: the body of the [try] *)
Definition get_spreadsheet_info_body (spreadsheet_id : string)
    : M W Py.pyobj :=
  spreadsheet <- open_by_key be spreadsheet_id ;;
  worksheets <- worksheets be spreadsheet ;;
  ret (Py.PyDict [("title", Py.PyStr (sp_title spreadsheet));
                  ("id", Py.PyStr (sp_id spreadsheet));
                  ("url", Py.PyStr (sp_url spreadsheet));
                  ("sheets", Py.PyList (map worksheet_info worksheets))]).

(** lines 114-153 *)
Definition get_spreadsheet_info (spreadsheet_id : string) : M W Py.pyobj :=
  try_catch (get_spreadsheet_info_body spreadsheet_id)
    (fun e =>
       if Py.is_SpreadsheetNotFound e then ret (error_dict not_found_text)
       else if Py.is_APIError e
       then ret (error_dict ("API Error: " ++ Py.exn_str e))
       else ret (error_dict (Py.exn_str e))).

(** lines 158-171: the body of the [try] *)
Definition get_sheet_data_body (spreadsheet_id sheet_title : string)
    : M W SheetData :=
  spreadsheet <- open_by_key be spreadsheet_id ;;
  worksheet <- worksheet be spreadsheet sheet_title ;;
  values <- get_all_values be worksheet ;;
  ret {| sd_error := None;
         sd_title := Some (ws_title worksheet);
         sd_data := Some values |}.

(** lines 155-182 *)
Definition get_sheet_data (spreadsheet_id sheet_title : string)
    : M W SheetData :=
  try_catch (get_sheet_data_body spreadsheet_id sheet_title)
    (fun e =>
       if Py.is_SpreadsheetNotFound e then ret (error_data not_found_text)
       else if Py.is_APIError e
       then ret (error_data ("API Error: " ++ Py.exn_str e))
       else ret (error_data (Py.exn_str e))).

(** lines 207-220 *)
Definition get_sheet_attributes (spreadsheet_id sheet_title : string)
    : M W (list string) :=
  try_catch
    (spreadsheet <- open_by_key be spreadsheet_id ;;
     worksheet <- worksheet be spreadsheet sheet_title ;;
     headers <- row_values be worksheet 1 ;;
     ret headers)
    (fun e => ret []).

(** lines 225-235: the body of the [try] *)
Definition add_data_to_sheet_body (spreadsheet_id sheet_title : string)
    (data : list Py.pyobj) : M W bool :=
  spreadsheet <- open_by_key be spreadsheet_id ;;
  worksheet <- worksheet be spreadsheet sheet_title ;;
  values <- get_all_values be worksheet ;;
  let next_row := length values + 1 in
  update be worksheet ("A" ++ Py.str_of_nat next_row) data ;;
  ret true.

(** lines 222-238 *)
Definition add_data_to_sheet (spreadsheet_id sheet_title : string)
    (data : list Py.pyobj) : M W bool :=
  try_catch (add_data_to_sheet_body spreadsheet_id sheet_title data)
    (fun e => ret false).
End Methods.

(** lines 184-205 *)
Definition format_sheet_data (data : SheetData) : result string :=
  match sd_error data with
  | Some err => inr ("Error: " ++ err)
  | None =>
      match sd_data data with
      | None => inr "No data found in the sheet"
      | Some rows =>
          if is_empty rows then inr "No data found in the sheet"
          else if is_empty rows then inr "Sheet is empty"
          else
            match rows with
            | [] => inl Py.IndexError
            | rows_0 :: rows_1 =>
                let header := Py.join " | " rows_0 in
                let separator := Py.repeat_str "-" (String.length header) in
                let formatted_rows :=
                  ([header; separator]
                   ++ map (fun row => Py.join " | " row) rows_1)%list in
                inr (Py.join nl formatted_rows)
            end
      end
  end.

End GoogleSheetsClient.

(** ** [update_sheet_record], lines 375-418: from the grid to the writes

    The statements between the read of the grid and the first write call
    no backend.  They leave by [return] with an error text, by an
    exception, or by falling through to the write loop. *)

Inductive flow (A : Type) : Type :=
| Go (a : A)
| Return (text : string)
| Raise (e : Py.exn).

Arguments Go {A}.
Arguments Return {A}.
Arguments Raise {A}.

Definition flow_bind {A B} (m : flow A) (k : A -> flow B) : flow B :=
  match m with
  | Go a => k a
  | Return t => Return t
  | Raise e => Raise e
  end.

(** A cell write [(row, col, val)], 1-based as [update_cell] takes it. *)
Definition CellWrite : Type := (nat * nat * string)%type.

(** [headers.index(col)] *)
Definition headers_index (headers : row) (col : string) : flow nat :=
  match Py.index col headers with
  | Some i => Go i
  | None => Raise (Py.ValueError ("'" ++ col ++ "' is not in list"))
  end.

(** lines 381-388 *)
Definition identifier_column (headers : row) : flow nat :=
  if Py.mem "id" headers then headers_index headers "id"
  else if Py.mem "name" headers then headers_index headers "name"
  else Return "Error: Sheet must have either 'id' or 'name' column as identifier".

(** lines 392-398, over the tokens of [updates.split()] *)
Fixpoint parse_updates (headers : row) (tokens : list string)
    (update_dict : Py.dict string) : flow (Py.dict string) :=
  match tokens with
  | [] => Go update_dict
  | update :: rest =>
      if Py.contains_char "=" update then
        let (col, val) := Py.split1 "=" update in
        if Py.mem col headers then
          parse_updates headers rest (Py.dict_set update_dict col val)
        else Return ("Error: Column '" ++ col ++ "' not found in sheet")
      else parse_updates headers rest update_dict
  end.

(** lines 404-408: [i] is the sheet row of the first of [rows] *)
Fixpoint find_row (identifier_col : nat) (identifier : string)
    (rows : grid) (i : nat) : flow (option nat) :=
  match rows with
  | [] => Go None
  | row :: rest =>
      match nth_error row identifier_col with
      | None => Raise Py.IndexError
      | Some cell =>
          if String.eqb (Py.lower cell) (Py.lower identifier) then Go (Some i)
          else find_row identifier_col identifier rest (S i)
      end
  end.

(** lines 411 and 424 *)
Definition identifier_type (headers : row) : string :=
  if Py.mem "id" headers then "id" else "name".

(** lines 415-418 *)
Fixpoint prepare_updates (headers : row) (row_index : nat)
    (items : Py.dict string) : flow (list CellWrite) :=
  match items with
  | [] => Go []
  | (col, val) :: rest =>
      flow_bind (headers_index headers col) (fun col_index =>
      flow_bind (prepare_updates headers row_index rest) (fun updates =>
      Go ((row_index, col_index + 1, val) :: updates)))
  end.

(** What the write loop and the final message need. *)
Record Plan : Type := {
  plan_headers : row;
  plan_update_dict : Py.dict string;
  plan_updates : list CellWrite
}.

(** lines 375-418 *)
Definition plan_update (all_values : grid) (identifier updates : string)
    : flow Plan :=
  match all_values with
  | [] => Return "Error: Sheet is empty"
  | headers :: data_rows =>
      flow_bind (identifier_column headers) (fun identifier_col =>
      flow_bind (parse_updates headers (Py.split updates) []) (fun update_dict =>
      match update_dict with
      | [] => Return "Error: No valid updates provided"
      | _ :: _ =>
          flow_bind (find_row identifier_col identifier data_rows 2)
            (fun row_index =>
          match row_index with
          | None =>
              Return ("Error: No record found with " ++ identifier_type headers
                      ++ " '" ++ identifier ++ "'")
          | Some row_index =>
              flow_bind (prepare_updates headers row_index update_dict)
                (fun updates =>
              Go {| plan_headers := headers;
                    plan_update_dict := update_dict;
                    plan_updates := updates |})
          end)
      end))
  end.

(** line 425 *)
Definition success_message (p : Plan) (identifier : string) : string :=
  "Successfully updated record with " ++ identifier_type (plan_headers p)
  ++ " '" ++ identifier ++ "' with: "
  ++ Py.join ", " (map (fun kv => fst kv ++ "=" ++ snd kv) (plan_update_dict p)).

(** ** The payload of [add_data_to_sheet], lines 332-343 *)

(** [[line.split(',') for line in data_str.strip().split('\n')]] *)
Definition csv_lines (data_str : string) : list Py.pyobj :=
  map (fun line => Py.PyList (map Py.PyStr (Py.split_on "," line)))
      (Py.split_on LF (Py.strip data_str)).

(** ** The tools, lines 240-429 *)

Definition format_error_text : string :=
  "Error: Invalid data format. Please provide data in the correct format (either as a list of lists or as CSV).".

Section Tools.
Context {W : Type}.
Variable be : Backend W.

(** [eval], as far as the server depends on it: the value of the
    payload read as an expression, or the exception raised. *)
Variable py_eval : string -> result Py.pyobj.

(** lines 241-247 *)
Definition list_spreadsheets : M W (list (Py.dict string)) :=
  try_catch
    (GoogleSheetsClient.__init__ be ;;
     GoogleSheetsClient.get_all_spreadsheets be)
    (fun e => ret [[("error", Py.exn_str e)]]).

(** lines 250-256 *)
Definition get_spreadsheet_info (spreadsheet_id : string) : M W Py.pyobj :=
  try_catch
    (GoogleSheetsClient.__init__ be ;;
     GoogleSheetsClient.get_spreadsheet_info be spreadsheet_id)
    (fun e => ret (GoogleSheetsClient.error_dict (Py.exn_str e))).

(** lines 259-266 *)
Definition get_sheet_content (spreadsheet_id sheet_title : string)
    : M W string :=
  try_catch
    (GoogleSheetsClient.__init__ be ;;
     data <- GoogleSheetsClient.get_sheet_data be spreadsheet_id sheet_title ;;
     lift (GoogleSheetsClient.format_sheet_data data))
    (fun e => ret ("Error: " ++ Py.exn_str e)).

(** [str], for the one place the server prints a list of records. *)
Variable py_str : Py.pyobj -> string.

(** line 303: the data the tool validates *)
Definition generated_data : Py.pyobj := Py.PyList [].

(** lines 315-317 *)
Fixpoint check_records (attributes : list string) (records : list Py.pyobj)
    : flow unit :=
  match records with
  | [] => Go tt
  | record :: rest =>
      match Py.len record with
      | inl e => Raise e
      | inr n =>
          if negb (n =? length attributes)
          then Return ("Error: Record has " ++ Py.str_of_nat n
                       ++ " values but expected "
                       ++ Py.str_of_nat (length attributes))
          else check_records attributes rest
      end
  end.

(** lines 305-320 *)
Definition validate_data (attributes : list string) (num_records : Z)
    (data : Py.pyobj) : flow string :=
  if negb (Py.truthy data)
  then Return "Error: No data was generated by the LLM"
  else
    match Py.isinstance_list data with
    | None => Return "Error: Generated data is not in the correct format"
    | Some records =>
        if negb (Z.eqb (Z.of_nat (length records)) num_records)
        then Return ("Error: Expected " ++ Py.str_of_Z num_records
                     ++ " records but got "
                     ++ Py.str_of_nat (length records))
        else flow_bind (check_records attributes records)
               (fun _ => Go (py_str data))
    end.

(** lines 269-323; the prompt text of lines 280-299 is built and not
    used *)
Definition generate_sheet_data (spreadsheet_id sheet_title : string)
    (num_records : Z) : M W string :=
  try_catch
    (GoogleSheetsClient.__init__ be ;;
     attributes <- GoogleSheetsClient.get_sheet_attributes be
                     spreadsheet_id sheet_title ;;
     if is_empty attributes
     then ret "Error: Could not get sheet attributes. Please check if the sheet exists and has headers."
     else
       match validate_data attributes num_records generated_data with
       | Go text => ret text
       | Return text => ret text
       | Raise e => raise e
       end)
    (fun e => ret ("Error: " ++ Py.exn_str e)).

(** lines 333-337: the first [try] *)
Definition parse_literal (data_str : string) : result (list Py.pyobj) :=
  match py_eval data_str with
  | inl e => inl e
  | inr data =>
      match Py.isinstance_list data with
      | Some items => inr items
      | None => inr (csv_lines data_str)
      end
  end.

(** line 341: the second [try] *)
Definition parse_csv (data_str : string) : result (list Py.pyobj) :=
  inr (csv_lines data_str).

(** lines 332-343: the data to add, or the text returned at line 343 *)
Definition parse_data_str (data_str : string) : flow (list Py.pyobj) :=
  match parse_literal data_str with
  | inr data => Go data
  | inl _ =>
      match parse_csv data_str with
      | inr data => Go data
      | inl _ => Return format_error_text
      end
  end.

(** lines 326-353 *)
Definition add_data_to_sheet (spreadsheet_id sheet_title data_str : string)
    : M W string :=
  try_catch
    (GoogleSheetsClient.__init__ be ;;
     match parse_data_str data_str with
     | Return text => ret text
     | Raise e => raise e
     | Go data =>
         success <- GoogleSheetsClient.add_data_to_sheet be
                      spreadsheet_id sheet_title data ;;
         if (success : bool)
         then ret ("Successfully added " ++ Py.str_of_nat (length data)
                   ++ " records to " ++ sheet_title)
         else ret "Error: Failed to add data to the sheet"
     end)
    (fun e => ret ("Error: " ++ Py.exn_str e)).

(** lines 420-422 *)
Definition apply_updates (worksheet : Worksheet) (updates : list CellWrite)
    : M W unit :=
  for_each updates
    (fun u => let '(row, col, val) := u in
              update_cell be worksheet row col val).

(** lines 356-429 *)
Definition update_sheet_record
    (spreadsheet_id sheet_title identifier updates : string) : M W string :=
  try_catch
    (GoogleSheetsClient.__init__ be ;;
     spreadsheet <- open_by_key be spreadsheet_id ;;
     worksheet <- worksheet be spreadsheet sheet_title ;;
     all_values <- get_all_values be worksheet ;;
     match plan_update all_values identifier updates with
     | Return text => ret text
     | Raise e => raise e
     | Go p =>
         apply_updates worksheet (plan_updates p) ;;
         ret (success_message p identifier)
     end)
    (fun e => ret ("Error: " ++ Py.exn_str e)).
End Tools.

End Server.

(* ================================================================== *)
(** * An in-memory backend *)
(* ================================================================== *)

(** Spreadsheets kept as lists of named sheets, each holding the grid
    [get_all_values] reports.  A write past the end of a sheet extends it;
    a write inside it replaces the cells it covers and nothing else.  The
    world also records every write call it accepted, and can be set to
    answer every API request with an error. *)

Module Mem.
Import Sheets.
Local Open Scope py_scope.

Record sheet : Type := {
  sh_title : string;
  sh_row_count : nat;
  sh_col_count : nat;
  sh_values : grid
}.

Record book : Type := {
  bk_info : Spreadsheet;
  bk_sheets : list sheet
}.

Inductive event : Type :=
| Update (spreadsheet_id sheet_title range : string) (values : grid)
| UpdateCell (spreadsheet_id sheet_title : string) (row col : nat)
    (value : string).

Record world : Type := {
  books : list book;
  fault : option Py.exn;
  log : list event
}.

(** *** Grids *)

(** [new] laid over the first cells of [old]. *)
Fixpoint overlay_row (new old : row) : row :=
  match new, old with
  | [], _ => old
  | x :: new', [] => x :: overlay_row new' []
  | x :: new', _ :: old' => x :: overlay_row new' old'
  end.

(** [data] laid over the first rows of [g]. *)
Fixpoint overlay_rows (data g : grid) : grid :=
  match data, g with
  | [], _ => g
  | d :: data', [] => d :: overlay_rows data' []
  | d :: data', r :: g' => overlay_row d r :: overlay_rows data' g'
  end.

(** [data] written into [g] below its first [skip] rows. *)
Fixpoint write_rows (skip : nat) (data g : grid) : grid :=
  match skip with
  | 0 => overlay_rows data g
  | S k =>
      match g with
      | [] => [] :: write_rows k data []
      | r :: g' => r :: write_rows k data g'
      end
  end.

(** [l] with [v] at position [n], padded with [d] when too short. *)
Fixpoint set_nth {A} (d : A) (n : nat) (v : A) (l : list A) : list A :=
  match n, l with
  | 0, [] => [v]
  | 0, _ :: l' => v :: l'
  | S k, [] => d :: set_nth d k v []
  | S k, x :: l' => x :: set_nth d k v l'
  end.

Definition set_cell (row col : nat) (v : string) (g : grid) : grid :=
  set_nth [] (row - 1) (set_nth "" (col - 1) v (nth (row - 1) g [])) g.

(** The row of a range ["A<row>"]. *)
Definition parse_A1 (range : string) : option nat :=
  match range with
  | String "A" digits =>
      option_map Nat.of_uint (NilEmpty.uint_of_string digits)
  | _ => None
  end.

(** The text of a scalar cell value. *)
Definition cell_of (v : Py.pyobj) : option string :=
  match v with
  | Py.PyStr s => Some s
  | Py.PyInt n => Some (NilEmpty.string_of_int (Z.to_int n))
  | Py.PyBool true => Some "TRUE"
  | Py.PyBool false => Some "FALSE"
  | _ => None
  end.

Fixpoint all_some {A B} (f : A -> option B) (l : list A) : option (list B) :=
  match l with
  | [] => Some []
  | x :: l' =>
      match f x, all_some f l' with
      | Some y, Some ys => Some (y :: ys)
      | _, _ => None
      end
  end.

Definition row_of (v : Py.pyobj) : option row :=
  match v with
  | Py.PyList cells => all_some cell_of cells
  | _ => None
  end.

(** *** Lookup and replacement *)

Fixpoint find_sheet (title : string) (l : list sheet) : option sheet :=
  match l with
  | [] => None
  | s :: l' => if String.eqb (sh_title s) title then Some s
               else find_sheet title l'
  end.

Fixpoint find_book (id : string) (l : list book) : option book :=
  match l with
  | [] => None
  | b :: l' => if String.eqb (sp_id (bk_info b)) id then Some b
               else find_book id l'
  end.

Definition lookup (w : world) (id title : string) : option sheet :=
  match find_book id (books w) with
  | Some b => find_sheet title (bk_sheets b)
  | None => None
  end.

Fixpoint put_sheet (title : string) (g : grid) (l : list sheet)
    : list sheet :=
  match l with
  | [] => []
  | s :: l' =>
      if String.eqb (sh_title s) title
      then {| sh_title := sh_title s; sh_row_count := sh_row_count s;
              sh_col_count := sh_col_count s; sh_values := g |} :: l'
      else s :: put_sheet title g l'
  end.

Fixpoint put_book (id title : string) (g : grid) (l : list book)
    : list book :=
  match l with
  | [] => []
  | b :: l' =>
      if String.eqb (sp_id (bk_info b)) id
      then {| bk_info := bk_info b;
              bk_sheets := put_sheet title g (bk_sheets b) |} :: l'
      else b :: put_book id title g l'
  end.

(** The sheet [(id, title)] now holds [g], and [ev] is recorded. *)
Definition store (w : world) (id title : string) (g : grid) (ev : event)
    : world :=
  {| books := put_book id title g (books w);
     fault := fault w;
     log := (log w ++ [ev])%list |}.

Definition handle (id : string) (s : sheet) : Worksheet :=
  {| ws_spreadsheet := id; ws_title := sh_title s;
     ws_row_count := sh_row_count s; ws_col_count := sh_col_count s |}.

Definition WorksheetNotFound (title : string) : Py.exn :=
  Py.Exn Py.OtherException title.

Definition bad_request (text : string) : Py.exn := Py.Exn Py.APIError text.

(** *** The calls *)

(** An API request: refused with the world's fault, if it has one. *)
Definition request {A} (m : M world A) : M world A :=
  fun w =>
    match fault w with
    | Some e => (inl e, w)
    | None => m w
    end.

Definition with_sheet {A} (ws : Worksheet) (k : sheet -> M world A)
    : M world A :=
  fun w =>
    match lookup w (ws_spreadsheet ws) (ws_title ws) with
    | Some s => k s w
    | None => (inl (WorksheetNotFound (ws_title ws)), w)
    end.

Definition mem_openall : M world (list Spreadsheet) :=
  request (fun w => (inr (map bk_info (books w)), w)).

Definition mem_open_by_key (id : string) : M world Spreadsheet :=
  request (fun w =>
    match find_book id (books w) with
    | Some b => (inr (bk_info b), w)
    | None => (inl (Py.Exn Py.SpreadsheetNotFound id), w)
    end).

Definition mem_worksheets (sp : Spreadsheet) : M world (list Worksheet) :=
  request (fun w =>
    match find_book (sp_id sp) (books w) with
    | Some b => (inr (map (handle (sp_id sp)) (bk_sheets b)), w)
    | None => (inl (Py.Exn Py.SpreadsheetNotFound (sp_id sp)), w)
    end).

Definition mem_worksheet (sp : Spreadsheet) (title : string)
    : M world Worksheet :=
  request (fun w =>
    match lookup w (sp_id sp) title with
    | Some s => (inr (handle (sp_id sp) s), w)
    | None => (inl (WorksheetNotFound title), w)
    end).

Definition mem_get_all_values (ws : Worksheet) : M world grid :=
  request (with_sheet ws (fun s => ret (sh_values s))).

Definition mem_row_values (ws : Worksheet) (n : nat) : M world row :=
  request (with_sheet ws (fun s => ret (nth (n - 1) (sh_values s) []))).

Definition mem_update (ws : Worksheet) (range : string)
    (values : list Py.pyobj) : M world unit :=
  request (with_sheet ws (fun s w =>
    match parse_A1 range, all_some row_of values with
    | Some (S k), Some rows =>
        (inr tt,
         store w (ws_spreadsheet ws) (ws_title ws)
           (write_rows k rows (sh_values s))
           (Update (ws_spreadsheet ws) (ws_title ws) range rows))
    | None, _ | Some 0, _ =>
        (inl (bad_request ("Unable to parse range: " ++ range)), w)
    | _, None => (inl (bad_request "Invalid values"), w)
    end)).

Definition mem_update_cell (ws : Worksheet) (row col : nat) (v : string)
    : M world unit :=
  request (with_sheet ws (fun s w =>
    match row, col with
    | S _, S _ =>
        (inr tt,
         store w (ws_spreadsheet ws) (ws_title ws)
           (set_cell row col v (sh_values s))
           (UpdateCell (ws_spreadsheet ws) (ws_title ws) row col v))
    | _, _ => (inl (bad_request "Invalid cell"), w)
    end)).

Definition backend : Backend world := {|
  load_credentials := ret tt;
  authorize := ret tt;
  openall := mem_openall;
  open_by_key := mem_open_by_key;
  worksheets := mem_worksheets;
  worksheet := mem_worksheet;
  get_all_values := mem_get_all_values;
  row_values := mem_row_values;
  update := mem_update;
  update_cell := mem_update_cell
|}.

(** A world with one spreadsheet ["S"] holding one sheet ["T"]. *)
Definition one_sheet (g : grid) : world :=
  {| books :=
       [{| bk_info := {| sp_title := "Book"; sp_id := "S";
                         sp_url := "https://docs.google.com/spreadsheets/d/S" |};
           bk_sheets := [{| sh_title := "T"; sh_row_count := 1000;
                            sh_col_count := 26; sh_values := g |}] |}];
     fault := None;
     log := [] |}.

(** The handle of that sheet. *)
Definition the_sheet : Worksheet :=
  {| ws_spreadsheet := "S"; ws_title := "T";
     ws_row_count := 1000; ws_col_count := 26 |}.

(** The same world, answering every request with [e]. *)
Definition failing (e : Py.exn) (g : grid) : world :=
  {| books := books (one_sheet g); fault := Some e; log := [] |}.

(** The grid of sheet ["T"] of spreadsheet ["S"]. *)
Definition grid_of (w : world) : option grid :=
  option_map sh_values (lookup w "S" "T").

Definition SyntaxError : Py.exn := Py.Exn Py.OtherException "invalid syntax".

(** An [eval] that knows two payloads, a list of rows and a number, and
    raises [SyntaxError] on every other text. *)
Definition eval_table (data_str : string) : result Py.pyobj :=
  if String.eqb data_str "[['a','b']]"
  then inr (Py.PyList [Py.PyList [Py.PyStr "a"; Py.PyStr "b"]])
  else if String.eqb data_str "42" then inr (Py.PyInt 42)
  else inl SyntaxError.

(** The API error of a project over its quota, and a world answering
    every request with it. *)
Definition quota_exceeded : Py.exn := Py.Exn Py.APIError "Quota exceeded".

Definition over_quota : world :=
  failing quota_exceeded [["id"; "name"]; ["1"; "Alice"]].

End Mem.

(* ================================================================== *)
(** * An in-memory backend that runs out of cell writes *)
(* ================================================================== *)

(** The in-memory backend with a budget of [update_cell] calls: each
    accepted call spends one, and with none left the call is refused
    with the quota error and changes nothing. *)

Module Budget.
Import Sheets.

Definition world : Type := (Mem.world * nat)%type.

Definition on_mem {A} (m : M Mem.world A) : M world A :=
  fun wn => let (r, w') := m (fst wn) in (r, (w', snd wn)).

Definition budget_update_cell (ws : Worksheet) (row col : nat) (v : string)
    : M world unit :=
  fun wn =>
    match snd wn with
    | 0 => (inl Mem.quota_exceeded, wn)
    | S k =>
        let (r, w') := Mem.mem_update_cell ws row col v (fst wn) in
        (r, (w', k))
    end.

Definition backend : Backend world := {|
  load_credentials := on_mem (load_credentials Mem.backend);
  authorize := on_mem (authorize Mem.backend);
  openall := on_mem (openall Mem.backend);
  open_by_key := fun id => on_mem (open_by_key Mem.backend id);
  worksheets := fun sp => on_mem (worksheets Mem.backend sp);
  worksheet := fun sp t => on_mem (worksheet Mem.backend sp t);
  get_all_values := fun ws => on_mem (get_all_values Mem.backend ws);
  row_values := fun ws n => on_mem (row_values Mem.backend ws n);
  update := fun ws r d => on_mem (update Mem.backend ws r d);
  update_cell := budget_update_cell
|}.

End Budget.

(* ================================================================== *)
(** * Specifications of the built-ins *)
(* ================================================================== *)

(** The characters of a string. *)
Fixpoint chars (s : string) : list ascii :=
  match s with
  | EmptyString => []
  | String c s' => c :: chars s'
  end.

(** No character of [s] is whitespace. *)
Definition no_space (s : string) : bool :=
  forallb (fun c => negb (Py.isspace c)) (chars s).

(** Every character of [s] is whitespace. *)
Definition all_space (s : string) : bool :=
  forallb Py.isspace (chars s).

(** [s] is empty or begins with whitespace. *)
Definition at_gap (s : string) : bool :=
  match s with
  | EmptyString => true
  | String c _ => Py.isspace c
  end.

(** [ts] are the whitespace-separated tokens of [s], read left to right:
    whitespace is skipped, and a token is a non-empty run of other
    characters that ends where whitespace or the end of [s] follows. *)
Inductive Tokens : string -> list string -> Prop :=
| Tokens_end : Tokens EmptyString []
| Tokens_skip c s ts :
    Py.isspace c = true -> Tokens s ts -> Tokens (String c s) ts
| Tokens_word t s ts :
    t <> EmptyString -> no_space t = true -> at_gap s = true ->
    Tokens s ts -> Tokens (t ++ s) (t :: ts).

(** The [column=value] pairs among [tokens]: each token with an ['='],
    cut at its first ['=']. *)
Definition key_values (tokens : list string) : list (string * string) :=
  map (Py.split1 "=") (filter (Py.contains_char "=") tokens).

(** The first of [cols] that is not a header. *)
Definition first_unknown (headers : Sheets.row) (cols : list string)
    : option string :=
  find (fun col => negb (Py.mem col headers)) cols.

(** The dictionary built by assigning [pairs] in order, starting from [d]. *)
Definition assign_all (pairs : list (string * string)) (d : Py.dict string)
    : Py.dict string :=
  fold_left (fun d kv => Py.dict_set d (fst kv) (snd kv)) pairs d.


Import Sheets Server.

(** The error texts of [update_sheet_record], by the name the design
    gives each failure. *)
Definition EmptySheet : string := "Error: Sheet is empty".

Definition NoIdentifierColumn : string :=
  "Error: Sheet must have either 'id' or 'name' column as identifier".

Definition UnknownColumn (col : string) : string :=
  "Error: Column '" ++ col ++ "' not found in sheet".

Definition NoUpdates : string := "Error: No valid updates provided".

Definition RecordNotFound (headers : row) (identifier : string) : string :=
  "Error: No record found with " ++ identifier_type headers
  ++ " '" ++ identifier ++ "'".

(** The cell of [row] in column [c] equals [identifier], case aside. *)
Definition matches (c : nat) (identifier : string) (r : row) : bool :=
  match nth_error r c with
  | Some cell => String.eqb (Py.lower cell) (Py.lower identifier)
  | None => false
  end.

(** The 1-based number of the first column headed [col]. *)
Definition column_number (headers : row) (col : string) : nat :=
  match Py.index col headers with
  | Some i => i + 1
  | None => 0
  end.

(** The write of one [column=value] pair into sheet row [r]. *)
Definition write_of (headers : row) (r : nat) (kv : string * string)
    : CellWrite :=
  (r, column_number headers (fst kv), snd kv).

(** Row [k] of [rows] (counted from 0) is the first whose cell in
    column [c] equals [identifier], case aside. *)
Definition first_match (c : nat) (identifier : string) (rows : grid)
    (k : nat) : Prop :=
  (exists r, nth_error rows k = Some r /\ matches c identifier r = true)
  /\ forall j r', j < k -> nth_error rows j = Some r' ->
                  matches c identifier r' = false.

(** No row of [rows] has [identifier] in column [c]. *)
Definition no_match (c : nat) (identifier : string) (rows : grid) : Prop :=
  forall r, In r rows -> matches c identifier r = false.

(** Every row of [rows] has a cell in column [c]. *)
Definition has_column (c : nat) (rows : grid) : Prop :=
  Forall (fun r => c < length r) rows.

(** The grid of the running example. *)
Definition people : grid :=
  [["id"; "name"]; ["1"; "Alice"]; ["2"; "Bob"]].

(** The backend calls [update_sheet_record] makes before it plans:
    lines 367-374. *)
Definition fetch {W} (be : Backend W) (spreadsheet_id sheet_title : string)
    : M W (Worksheet * grid) :=
  (GoogleSheetsClient.__init__ be ;;
   spreadsheet <- open_by_key be spreadsheet_id ;;
   worksheet <- worksheet be spreadsheet sheet_title ;;
   all_values <- get_all_values be worksheet ;;
   ret (worksheet, all_values))%py.

(** What a tool answers once the exception [e] reaches its handler. *)
Definition error_text (e : Py.exn) : string := "Error: " ++ Py.exn_str e.

(** The text [generate_sheet_data] returns without a header row. *)
Definition no_attributes_text : string :=
  "Error: Could not get sheet attributes. Please check if the sheet exists and has headers.".

(** The rows of strings as the tool hands them to the client. *)
Definition py_rows (rows : grid) : list Py.pyobj :=
  map (fun r => Py.PyList (map Py.PyStr r)) rows.

(** The comma-separated text of [rows]. *)
Definition csv_text (rows : grid) : string :=
  Py.join nl (map (Py.join ",") rows).

(** The cell of [g] in row [r] and column [c], both 1-based. *)
Definition cell_at (g : grid) (r c : nat) : option string :=
  match nth_error g (r - 1) with
  | Some cells => nth_error cells (c - 1)
  | None => None
  end.

(** Every data row is as long as the header row. *)
Definition rectangular (headers : row) (data_rows : grid) : Prop :=
  Forall (fun r => length r = length headers) data_rows.

(** One assignment of the update dictionary, on the cells of a row. *)
Definition assign_cell (headers : row) (cells : row) (kv : string * string)
    : row :=
  Mem.set_nth "" (column_number headers (fst kv) - 1) (snd kv) cells.

(** The grid [g] with the update dictionary [d] written into row [r]. *)
Definition updated_grid (headers : row) (r : nat) (d : Py.dict string)
    (g : grid) : grid :=
  Mem.set_nth [] (r - 1)
    (fold_left (assign_cell headers) d (nth (r - 1) g [])) g.

(** The grid after the cell writes [us], made in order. *)
Definition write_all (us : list CellWrite) (g : grid) : grid :=
  fold_left (fun g u => Mem.set_cell (fst (fst u)) (snd (fst u)) (snd u) g)
    us g.

Definition cell_event (sid title : string) (u : CellWrite) : Mem.event :=
  Mem.UpdateCell sid title (fst (fst u)) (snd (fst u)) (snd u).

(** *** The first empty row of a sheet *)

(** A row without content: it has no cell, or empty cells only. *)
Definition blank (r : row) : bool := forallb (fun c => String.eqb c "") r.

(** The rows of [values] down to the last one with content. *)
Fixpoint content (values : grid) : grid :=
  match values with
  | [] => []
  | r :: rest =>
      match content rest with
      | [] => if blank r then [] else [r]
      | below => r :: below
      end
  end.

(** The first row below the content of the sheet, counted from 1. *)
Definition first_empty_row (values : grid) : nat := length (content values) + 1.

(** One row appended to sheet ["T"], and a second one after it. *)
Definition append_ab (w : Mem.world) : result bool * Mem.world :=
  GoogleSheetsClient.add_data_to_sheet Mem.backend "S" "T"
    [Py.PyList [Py.PyStr "a"; Py.PyStr "b"]] w.

Definition append_cd (w : Mem.world) : result bool * Mem.world :=
  GoogleSheetsClient.add_data_to_sheet Mem.backend "S" "T"
    [Py.PyList [Py.PyStr "c"; Py.PyStr "d"]] w.

Lemma append_assoc (a b c : string) : (a ++ b) ++ c = a ++ b ++ c.
Proof. induction a as [|x a IH]; simpl; congruence. Qed.

Lemma append_empty_r (a : string) : a ++ EmptyString = a.
Proof. induction a as [|x a IH]; simpl; congruence. Qed.

Lemma mem_In (x : string) (l : list string) :
  Py.mem x l = true <-> In x l.
Proof.
  induction l as [|y l IH]; simpl.
  - split; [discriminate | tauto].
  - rewrite orb_true_iff, String.eqb_eq, IH. tauto.
Qed.

Lemma mem_false_In (x : string) (l : list string) :
  Py.mem x l = false <-> ~ In x l.
Proof.
  rewrite <- mem_In. destruct (Py.mem x l); split; congruence.
Qed.

(** [l.index(x)] is the first position holding [x]. *)
Lemma index_first (x : string) (l : list string) :
  Py.mem x l = true ->
  exists i, Py.index x l = Some i /\ nth_error l i = Some x
            /\ forall j, j < i -> nth_error l j <> Some x.
Proof.
  induction l as [|y l IH]; simpl; [discriminate|].
  destruct (String.eqb y x) eqn:E; simpl.
  - intros _. apply String.eqb_eq in E. subst y.
    exists 0. repeat split; auto. intros j Hj. lia.
  - intros Hm. destruct (IH Hm) as (i & Hi & Hn & Hlt).
    exists (S i). rewrite Hi. repeat split; auto.
    intros [|j] Hj; simpl.
    + apply String.eqb_neq in E. congruence.
    + apply Hlt. lia.
Qed.

(** [s.split(sep, 1)] cuts at the first [sep]. *)
Lemma split1_first (sep : ascii) (s : string) :
  Py.contains_char sep s = true ->
  s = fst (Py.split1 sep s) ++ String sep (snd (Py.split1 sep s))
  /\ Py.contains_char sep (fst (Py.split1 sep s)) = false.
Proof.
  induction s as [|c s IH]; simpl; [discriminate|].
  destruct (Ascii.eqb c sep) eqn:E; simpl.
  - intros _. apply Ascii.eqb_eq in E. subst c. auto.
  - intros H. destruct (IH H) as [H1 H2].
    destruct (Py.split1 sep s) as [a b]; simpl in *.
    rewrite E. simpl. split; [congruence | assumption].
Qed.

Lemma words_head (s : string) :
  no_space (fst (Py.words s)) = true
  /\ Forall (fun t => t <> EmptyString /\ no_space t = true) (snd (Py.words s)).
Proof.
  induction s as [|c s [IH1 IH2]]; simpl.
  - split; [reflexivity | constructor].
  - destruct (Py.words s) as [h t]; simpl in *.
    destruct (Py.isspace c) eqn:E; simpl.
    + split; [reflexivity|].
      destruct h; simpl; auto.
      constructor; auto. split; [discriminate | assumption].
    + unfold no_space in *. simpl. rewrite E. simpl. auto.
Qed.

(** The tokens of [s.split()] are non-empty and free of whitespace. *)
Lemma split_tokens (s : string) :
  Forall (fun t => t <> EmptyString /\ no_space t = true) (Py.split s).
Proof.
  unfold Py.split. pose proof (words_head s) as [H1 H2].
  destruct (Py.words s) as [h t]; simpl in *.
  destruct h; simpl; auto.
  constructor; auto. split; [discriminate | assumption].
Qed.

Lemma split_skip (c : ascii) (s : string) :
  Py.isspace c = true -> Py.split (String c s) = Py.split s.
Proof.
  intros H. unfold Py.split. simpl.
  destruct (Py.words s) as [h t]. rewrite H. reflexivity.
Qed.

Lemma words_word (t s : string) :
  no_space t = true ->
  Py.words (t ++ s) = (t ++ fst (Py.words s), snd (Py.words s)).
Proof.
  induction t as [|c t IH]; simpl; intros H.
  - destruct (Py.words s); reflexivity.
  - unfold no_space in H. simpl in H. apply andb_true_iff in H as [Hc Ht].
    rewrite (IH Ht). apply negb_true_iff in Hc. rewrite Hc. reflexivity.
Qed.

Lemma words_at_gap (s : string) :
  at_gap s = true -> fst (Py.words s) = EmptyString.
Proof.
  destruct s as [|c s]; simpl; [reflexivity|].
  intros H. destruct (Py.words s). rewrite H. reflexivity.
Qed.

Lemma split_word (t s : string) :
  t <> EmptyString -> no_space t = true -> at_gap s = true ->
  Py.split (t ++ s) = t :: Py.split s.
Proof.
  intros Hne Hns Hgap. unfold Py.split.
  rewrite (words_word t s Hns).
  pose proof (words_at_gap s Hgap) as Hh.
  destruct (Py.words s) as [h r]; simpl in *. subst h.
  assert (E : t ++ EmptyString = t).
  { clear. induction t; simpl; congruence. }
  rewrite E. destruct t; [congruence | reflexivity].
Qed.

Lemma words_decompose (s : string) :
  exists s0, s = fst (Py.words s) ++ s0 /\ at_gap s0 = true
             /\ Tokens s0 (snd (Py.words s)).
Proof.
  induction s as [|c s (s0 & Hs & Hgap & Htok)]; simpl.
  - exists EmptyString. repeat split; constructor.
  - pose proof (words_head s) as [Hh _].
    destruct (Py.words s) as [h t]; simpl in *.
    destruct (Py.isspace c) eqn:E; simpl.
    + exists (String c s). simpl. rewrite E. repeat split.
      apply Tokens_skip; [assumption|].
      destruct h as [|a h]; simpl in *.
      * subst s. assumption.
      * rewrite Hs. apply (Tokens_word (String a h) s0 t); auto. discriminate.
    + exists s0. repeat split; auto. congruence.
Qed.

(** [s.split()] yields the whitespace-separated tokens of [s]. *)
Lemma split_Tokens (s : string) : Tokens s (Py.split s).
Proof.
  unfold Py.split.
  destruct (words_decompose s) as (s0 & Hs & Hgap & Htok).
  pose proof (words_head s) as [Hh _].
  destruct (Py.words s) as [h t]; simpl in *.
  destruct h as [|a h]; simpl in *.
  - subst s. assumption.
  - rewrite Hs. apply (Tokens_word (String a h) s0 t); auto. discriminate.
Qed.

(** ... and nothing else does. *)
Lemma Tokens_split (s : string) (ts : list string) :
  Tokens s ts -> ts = Py.split s.
Proof.
  induction 1 as [|c s ts Hc _ IH|t s ts Hne Hns Hgap _ IH].
  - reflexivity.
  - rewrite split_skip; assumption.
  - rewrite split_word; congruence.
Qed.

Lemma all_space_lstrip (s : string) :
  all_space s = true -> Py.lstrip s = EmptyString.
Proof.
  induction s as [|c s IH]; simpl; [reflexivity|].
  unfold all_space. simpl. intros H. apply andb_true_iff in H as [Hc Hs].
  rewrite Hc. apply IH. exact Hs.
Qed.

Lemma all_space_strip (s : string) :
  all_space s = true -> Py.strip s = EmptyString.
Proof.
  intros H. unfold Py.strip. rewrite (all_space_lstrip s H). reflexivity.
Qed.

(** [s.split(sep)] is never the empty list. *)
Lemma split_on_nonempty (sep : ascii) (s : string) : Py.split_on sep s <> [].
Proof.
  unfold Py.split_on. destruct (Py.fields sep s). discriminate.
Qed.

(** *** Substrings *)

Lemma prefix_app (m q : string) : String.prefix m (m ++ q) = true.
Proof.
  induction m as [|c m IH]; simpl.
  - destruct q; reflexivity.
  - destruct (ascii_dec c c); [exact IH | congruence].
Qed.

Lemma contains_prefix (m s : string) :
  String.prefix m s = true -> Py.contains m s = true.
Proof. intros H. destruct s; unfold Py.contains; fold Py.contains; rewrite H; reflexivity. Qed.

Lemma contains_app (p m q : string) : Py.contains m (p ++ m ++ q) = true.
Proof.
  induction p as [|c p IH]; simpl.
  - apply contains_prefix, prefix_app.
  - rewrite IH. apply orb_true_r.
Qed.

Lemma contains_suffix (p m : string) : Py.contains m (p ++ m) = true.
Proof.
  assert (E : m = m ++ EmptyString).
  { clear. induction m; simpl; congruence. }
  rewrite E at 2. apply contains_app.
Qed.

Lemma contains_refl (m : string) : Py.contains m m = true.
Proof. apply (contains_suffix EmptyString m). Qed.

(** *** Dictionaries *)

Lemma dict_set_keys_fresh (d : Py.dict string) (k v : string) :
  ~ In k (Py.dict_keys d) -> Py.dict_set d k v = (d ++ [(k, v)])%list.
Proof.
  induction d as [|[k' v'] d IH]; simpl; intros H; [reflexivity|].
  destruct (String.eqb k' k) eqn:E.
  - apply String.eqb_eq in E. tauto.
  - rewrite IH; tauto.
Qed.

Lemma dict_set_keys_present (d : Py.dict string) (k v : string) :
  In k (Py.dict_keys d) -> Py.dict_keys (Py.dict_set d k v) = Py.dict_keys d.
Proof.
  induction d as [|[k' v'] d IH]; simpl; intros H; [tauto|].
  destruct (String.eqb k' k) eqn:E; simpl; [reflexivity|].
  apply String.eqb_neq in E. f_equal. apply IH. tauto.
Qed.

Lemma dict_set_keys (d : Py.dict string) (k v : string) :
  Py.dict_keys (Py.dict_set d k v)
  = if Py.mem k (Py.dict_keys d) then Py.dict_keys d
    else (Py.dict_keys d ++ [k])%list.
Proof.
  destruct (Py.mem k (Py.dict_keys d)) eqn:E.
  - apply dict_set_keys_present, mem_In, E.
  - apply mem_false_In in E. rewrite dict_set_keys_fresh by assumption.
    unfold Py.dict_keys. rewrite map_app. reflexivity.
Qed.

Lemma dict_set_NoDup (d : Py.dict string) (k v : string) :
  NoDup (Py.dict_keys d) -> NoDup (Py.dict_keys (Py.dict_set d k v)).
Proof.
  intros H. rewrite dict_set_keys.
  destruct (Py.mem k (Py.dict_keys d)) eqn:E; [assumption|].
  apply mem_false_In in E.
  apply NoDup_app; [assumption | repeat constructor; simpl; tauto |].
  intros x Hx [<-|[]]. contradiction.
Qed.


Lemma assign_all_NoDup (pairs : list (string * string)) (d : Py.dict string) :
  NoDup (Py.dict_keys d) -> NoDup (Py.dict_keys (assign_all pairs d)).
Proof.
  revert d. induction pairs as [|[k v] pairs IH]; simpl; intros d H.
  - assumption.
  - apply IH, dict_set_NoDup, H.
Qed.


Lemma assign_all_keys (pairs : list (string * string)) (d : Py.dict string)
    (k : string) :
  In k (Py.dict_keys (assign_all pairs d))
  <-> In k (Py.dict_keys d) \/ In k (map fst pairs).
Proof.
  revert d. induction pairs as [|[k' v] pairs IH]; simpl; intros d.
  - tauto.
  - rewrite IH, dict_set_keys.
    destruct (Py.mem k' (Py.dict_keys d)) eqn:E.
    + apply mem_In in E. intuition (subst; auto).
    + rewrite in_app_iff. simpl. tauto.
Qed.


(* ================================================================== *)
(** * Facts about the planning code *)
(* ================================================================== *)

Lemma headers_index_known (headers : row) (col : string) :
  In col headers ->
  exists i, headers_index headers col = Go i
            /\ nth_error headers i = Some col
            /\ (forall j, j < i -> nth_error headers j <> Some col)
            /\ column_number headers col = i + 1.
Proof.
  intros H. apply mem_In in H.
  destruct (index_first col headers H) as (i & Hi & Hn & Hlt).
  exists i. unfold headers_index, column_number. rewrite Hi. auto.
Qed.

Lemma identifier_column_id (headers : row) :
  In "id" headers ->
  exists i, identifier_column headers = Go i
            /\ nth_error headers i = Some "id"
            /\ forall j, j < i -> nth_error headers j <> Some "id".
Proof.
  intros H. unfold identifier_column.
  destruct (headers_index_known headers "id" H) as (i & Hi & Hn & Hlt & _).
  apply mem_In in H. rewrite H. eauto.
Qed.

Lemma identifier_column_name (headers : row) :
  ~ In "id" headers -> In "name" headers ->
  exists i, identifier_column headers = Go i
            /\ nth_error headers i = Some "name"
            /\ forall j, j < i -> nth_error headers j <> Some "name".
Proof.
  intros Hid H. unfold identifier_column.
  destruct (headers_index_known headers "name" H) as (i & Hi & Hn & Hlt & _).
  apply mem_false_In in Hid. apply mem_In in H. rewrite Hid, H. eauto.
Qed.

Lemma identifier_column_none (headers : row) :
  ~ In "id" headers -> ~ In "name" headers ->
  identifier_column headers = Return NoIdentifierColumn.
Proof.
  intros Hid Hname. unfold identifier_column.
  apply mem_false_In in Hid, Hname. rewrite Hid, Hname. reflexivity.
Qed.

Lemma key_values_cons (t : string) (tokens : list string) :
  key_values (t :: tokens)
  = if Py.contains_char "=" t then Py.split1 "=" t :: key_values tokens
    else key_values tokens.
Proof.
  unfold key_values. simpl. destruct (Py.contains_char "=" t); reflexivity.
Qed.

(** The parse loop stops at the first unknown column, and otherwise
    assigns every pair in order. *)
Lemma parse_updates_spec (headers : row) (tokens : list string)
    (d : Py.dict string) :
  parse_updates headers tokens d
  = match first_unknown headers (map fst (key_values tokens)) with
    | Some col => Return (UnknownColumn col)
    | None => Go (assign_all (key_values tokens) d)
    end.
Proof.
  revert d. induction tokens as [|t tokens IH]; intros d; simpl.
  - reflexivity.
  - rewrite key_values_cons.
    destruct (Py.contains_char "=" t); [|apply IH].
    destruct (Py.split1 "=" t) as [col val]; simpl.
    unfold first_unknown in *. simpl.
    destruct (Py.mem col headers); simpl; [apply IH | reflexivity].
Qed.

(** Each pair comes from a token with an ['='], cut at the first one. *)
Lemma key_values_tokens (tokens : list string) (kv : string * string) :
  In kv (key_values tokens) ->
  exists t, In t tokens /\ t = fst kv ++ String "=" (snd kv)
            /\ Py.contains_char "=" (fst kv) = false.
Proof.
  unfold key_values. rewrite in_map_iff.
  intros (t & <- & Ht). apply filter_In in Ht as [Hin Hc].
  exists t. destruct (split1_first "=" t Hc). auto.
Qed.

(** The row scan on rows that all have the identifier cell. *)
Lemma find_row_spec (c : nat) (identifier : string) (rows : grid) (i : nat) :
  Forall (fun r => c < length r) rows ->
  (exists k r, nth_error rows k = Some r
               /\ matches c identifier r = true
               /\ (forall j r', j < k -> nth_error rows j = Some r' ->
                                matches c identifier r' = false)
               /\ find_row c identifier rows i = Go (Some (i + k)))
  \/ ((forall r, In r rows -> matches c identifier r = false)
      /\ find_row c identifier rows i = Go None).
Proof.
  intros H. revert i. induction H as [|r rows Hr _ IH]; intros i; simpl.
  - right. split; [tauto | reflexivity].
  - apply nth_error_Some in Hr.
    destruct (nth_error r c) as [cell|] eqn:Hcell; [|congruence].
    destruct (String.eqb (Py.lower cell) (Py.lower identifier)) eqn:E.
    + left. exists 0, r. simpl. unfold matches. rewrite Hcell.
      repeat split; auto.
      * intros j r' Hj. lia.
      * f_equal. f_equal. lia.
    + assert (Hm : matches c identifier r = false).
      { unfold matches. rewrite Hcell. exact E. }
      destruct (IH (S i)) as [(k & r0 & Hk & Hmk & Hlt & Hf)|[Hno Hf]].
      * left. exists (S k), r0. simpl. repeat split; auto.
        -- intros [|j] r' Hj; simpl.
           ++ intros [= <-]. exact Hm.
           ++ apply Hlt. lia.
        -- rewrite Hf. f_equal. f_equal. lia.
      * right. split; [|exact Hf].
        intros r' [<-|Hin]; auto.
Qed.

(** A row too short to have the identifier cell stops the scan with an
    [IndexError], unless an earlier row matched. *)
Lemma find_row_short (c : nat) (identifier : string) (r : row) (rows : grid)
    (i : nat) :
  length r <= c -> find_row c identifier (r :: rows) i = Raise Py.IndexError.
Proof.
  intros H. simpl. apply nth_error_None in H. rewrite H. reflexivity.
Qed.

Lemma prepare_updates_spec (headers : row) (r : nat) (d : Py.dict string) :
  Forall (fun k => In k headers) (Py.dict_keys d) ->
  prepare_updates headers r d = Go (map (write_of headers r) d).
Proof.
  induction d as [|[col val] d IH]; simpl; intros H.
  - reflexivity.
  - inversion H as [|? ? Hcol Hrest]; subst.
    destruct (headers_index_known headers col Hcol) as (i & Hi & _ & _ & Hn).
    rewrite Hi. simpl. rewrite (IH Hrest). simpl.
    f_equal. f_equal. unfold write_of. cbn [fst snd]. rewrite Hn. reflexivity.
Qed.

Lemma first_unknown_none (headers : row) (cols : list string) :
  first_unknown headers cols = None <-> Forall (fun k => In k headers) cols.
Proof.
  unfold first_unknown. induction cols as [|k cols IH]; simpl.
  - split; auto.
  - destruct (Py.mem k headers) eqn:E; simpl.
    + rewrite IH. apply mem_In in E. split.
      * auto.
      * intros H. inversion H. assumption.
    + apply mem_false_In in E. split; [discriminate|].
      intros H. inversion H. contradiction.
Qed.

Lemma first_unknown_some (headers : row) (cols : list string) (col : string) :
  first_unknown headers cols = Some col ->
  ~ In col headers
  /\ exists before after,
       cols = (before ++ col :: after)%list
       /\ Forall (fun k => In k headers) before.
Proof.
  unfold first_unknown. induction cols as [|k cols IH]; simpl; [discriminate|].
  destruct (Py.mem k headers) eqn:E; simpl.
  - intros H. destruct (IH H) as (Hn & before & after & -> & Hb).
    split; [assumption|]. exists (k :: before), after.
    split; [reflexivity|]. constructor; [apply mem_In, E | assumption].
  - intros [= <-]. apply mem_false_In in E.
    split; [assumption|]. exists [], cols. split; [reflexivity | constructor].
Qed.


(* ================================================================== *)
(** * [update_sheet_record] *)
(* ================================================================== *)

Section UpdateFacts.
Context {W : Type}.
Variable be : Backend W.

(** After the grid is read, the tool does what the plan says. *)
Lemma update_sheet_record_run
    (sid title identifier updates : string) (w w' : W)
    (ws : Worksheet) (g : grid) :
  fetch be sid title w = (inr (ws, g), w') ->
  update_sheet_record be sid title identifier updates w
  = match plan_update g identifier updates with
    | Return text => (inr text, w')
    | Raise e => (inr (error_text e), w')
    | Go p =>
        match apply_updates be ws (plan_updates p) w' with
        | (inr _, w'') => (inr (success_message p identifier), w'')
        | (inl e, w'') => (inr (error_text e), w'')
        end
    end.
Proof.
  unfold fetch, update_sheet_record, try_catch, bind, ret, raise.
  destruct (GoogleSheetsClient.__init__ be w) as [[e|[]] w1]; [discriminate|].
  destruct (open_by_key be sid w1) as [[e|sp] w2]; [discriminate|].
  destruct (worksheet be sp title w2) as [[e|ws0] w3]; [discriminate|].
  destruct (get_all_values be ws0 w3) as [[e|g0] w4]; [discriminate|].
  intros [= -> -> ->].
  destruct (plan_update g identifier updates) as [p|text|e]; try reflexivity.
  destruct (apply_updates be ws (plan_updates p) w') as [[e|[]] w5];
    reflexivity.
Qed.

End UpdateFacts.

Lemma parse_updates_keys (headers : row) (tokens : list string)
    (d : Py.dict string) :
  parse_updates headers tokens [] = Go d ->
  d = assign_all (key_values tokens) []
  /\ Forall (fun kv => In (fst kv) headers) (key_values tokens)
  /\ Forall (fun k => In k headers) (Py.dict_keys d).
Proof.
  rewrite parse_updates_spec.
  destruct (first_unknown headers (map fst (key_values tokens))) eqn:E;
    [discriminate|].
  intros [= <-]. apply first_unknown_none in E.
  split; [reflexivity|]. split.
  - rewrite Forall_map in E. exact E.
  - apply Forall_forall. intros k Hk.
    apply assign_all_keys in Hk as [[]|Hk].
    rewrite Forall_forall in E. auto.
Qed.

Lemma find_row_bounds (c : nat) (identifier : string) (rows : grid)
    (i r : nat) :
  find_row c identifier rows i = Go (Some r) -> i <= r < i + length rows.
Proof.
  revert i. induction rows as [|x rows IH]; simpl; intros i; [discriminate|].
  destruct (nth_error x c) as [cell|]; [|discriminate].
  destruct (String.eqb (Py.lower cell) (Py.lower identifier)).
  - intros [= <-]. lia.
  - intros H. apply IH in H. lia.
Qed.

Lemma parse_updates_filter (headers : row) (tokens : list string)
    (d : Py.dict string) :
  parse_updates headers tokens d
  = parse_updates headers (filter (Py.contains_char "=") tokens) d.
Proof.
  rewrite !parse_updates_spec. unfold key_values.
  assert (E : filter (Py.contains_char "=")
                (filter (Py.contains_char "=") tokens)
              = filter (Py.contains_char "=") tokens).
  { induction tokens as [|t tokens IH]; simpl; [reflexivity|].
    destruct (Py.contains_char "=" t) eqn:Ht; simpl; [|exact IH].
    rewrite Ht, IH. reflexivity. }
  rewrite E. reflexivity.
Qed.




(** Once the identifier column and the updates are known, the plan is
    decided by the row scan. *)
Lemma plan_update_scan (headers : row) (data_rows : grid)
    (identifier updates : string) (c : nat) (d : Py.dict string) :
  identifier_column headers = Go c ->
  parse_updates headers (Py.split updates) [] = Go d ->
  d <> [] ->
  plan_update (headers :: data_rows) identifier updates
  = match find_row c identifier data_rows 2 with
    | Go (Some r) =>
        Go {| plan_headers := headers;
              plan_update_dict := d;
              plan_updates := map (write_of headers r) d |}
    | Go None => Return (RecordNotFound headers identifier)
    | Return text => Return text
    | Raise e => Raise e
    end.
Proof.
  intros Hc Hd Hne. unfold plan_update. rewrite Hc, Hd. cbn [flow_bind].
  destruct d as [|kv d]; [congruence|].
  destruct (find_row c identifier data_rows 2) as [[r|]|t|e];
    cbn [flow_bind]; try reflexivity.
  apply parse_updates_keys in Hd as (_ & _ & Hk).
  rewrite (prepare_updates_spec headers r (kv :: d) Hk). reflexivity.
Qed.

(** What a plan that reaches the write loop went through. *)
Lemma plan_update_go (g : grid) (identifier updates : string) (p : Plan) :
  plan_update g identifier updates = Go p ->
  exists headers data_rows c r,
    g = headers :: data_rows
    /\ plan_headers p = headers
    /\ identifier_column headers = Go c
    /\ parse_updates headers (Py.split updates) [] = Go (plan_update_dict p)
    /\ plan_update_dict p <> []
    /\ find_row c identifier data_rows 2 = Go (Some r)
    /\ plan_updates p = map (write_of headers r) (plan_update_dict p).
Proof.
  destruct g as [|headers data_rows]; [discriminate|].
  intros H. exists headers, data_rows.
  destruct (identifier_column headers) as [c|t|e] eqn:Hc;
    [|unfold plan_update in H; rewrite Hc in H; discriminate ..].
  destruct (parse_updates headers (Py.split updates) []) as [d|t|e] eqn:Hd;
    [|unfold plan_update in H; rewrite Hc, Hd in H; discriminate ..].
  destruct d as [|kv d];
    [unfold plan_update in H; rewrite Hc, Hd in H; discriminate|].
  rewrite (plan_update_scan headers data_rows identifier updates c (kv :: d))
    in H by (auto; discriminate).
  destruct (find_row c identifier data_rows 2) as [[r|]|t|e] eqn:Hf;
    try discriminate.
  injection H as <-. exists c, r. cbn.
  repeat split; auto. discriminate.
Qed.

(* ================================================================== *)
(** * The claims about [update_sheet_record] *)
(* ================================================================== *)

(** C1.  For the grid [[["id","name"],["1","Alice"],["2","Bob"]]], the
    identifier ["2"] and the update expression ["name=Bobby"], the plan of
    [update_sheet_record] holds exactly one cell write: row 3, column 2
    (both 1-based), value ["Bobby"]; run on a sheet holding that grid,
    the tool makes that one [update_cell] call and no other write. *)
Theorem C1_plan_of_running_example :
  plan_update people "2" "name=Bobby"
  = Go {| plan_headers := ["id"; "name"];
          plan_update_dict := [("name", "Bobby")];
          plan_updates := [(3, 2, "Bobby")] |}
  /\ Mem.log (snd (update_sheet_record Mem.backend "S" "T" "2" "name=Bobby"
                     (Mem.one_sheet people)))
     = [Mem.UpdateCell "S" "T" 3 2 "Bobby"]
  /\ Mem.grid_of (snd (update_sheet_record Mem.backend "S" "T" "2"
                         "name=Bobby" (Mem.one_sheet people)))
     = Some [["id"; "name"]; ["1"; "Alice"]; ["2"; "Bobby"]].
Proof. repeat split; reflexivity. Qed.

(** C2.  On a non-empty grid whose data rows all have a cell in the
    identifier column, [update_sheet_record] takes as target the first
    data row (rows after the header, in order) whose identifier cell
    equals the identifier case-insensitively: every write of the plan goes
    to that row, whatever rows match later.  When no data row matches, it
    returns the record-not-found text, which names the identifier, and
    the world is the one the reads left: no cell write is made. *)
Theorem C2_first_matching_row {W} (be : Backend W)
    (sid title identifier updates : string) (w w' : W) (ws : Worksheet)
    (headers : row) (data_rows : grid) (c : nat) (d : Py.dict string) :
  fetch be sid title w = (inr (ws, headers :: data_rows), w') ->
  identifier_column headers = Go c ->
  parse_updates headers (Py.split updates) [] = Go d ->
  d <> [] ->
  has_column c data_rows ->
  (exists k,
      first_match c identifier data_rows k
      /\ plan_update (headers :: data_rows) identifier updates
         = Go {| plan_headers := headers;
                 plan_update_dict := d;
                 plan_updates := map (write_of headers (k + 2)) d |}
      /\ update_sheet_record be sid title identifier updates w
         = match apply_updates be ws (map (write_of headers (k + 2)) d) w' with
           | (inr _, w'') =>
               (inr (success_message
                       {| plan_headers := headers;
                          plan_update_dict := d;
                          plan_updates := map (write_of headers (k + 2)) d |}
                       identifier), w'')
           | (inl e, w'') => (inr (error_text e), w'')
           end)
  \/ (no_match c identifier data_rows
      /\ plan_update (headers :: data_rows) identifier updates
         = Return (RecordNotFound headers identifier)
      /\ Py.contains identifier (RecordNotFound headers identifier) = true
      /\ update_sheet_record be sid title identifier updates w
         = (inr (RecordNotFound headers identifier), w')).
Proof.
  intros Hfetch Hc Hd Hne Hcol.
  pose proof (update_sheet_record_run be sid title identifier updates
                w w' ws _ Hfetch) as Hrun.
  pose proof (plan_update_scan headers data_rows identifier updates c d
                Hc Hd Hne) as Hplan.
  destruct (find_row_spec c identifier data_rows 2 Hcol)
    as [(k & r & Hk & Hm & Hlt & Hf)|[Hno Hf]].
  - left. exists k. rewrite Hf in Hplan.
    replace (2 + k) with (k + 2) in Hplan by lia.
    rewrite Hplan in Hrun. cbn [plan_updates] in Hrun.
    split; [|split; assumption].
    split; [exists r; auto | exact Hlt].
  - right. rewrite Hf in Hplan. rewrite Hplan in Hrun.
    repeat split; auto.
    unfold RecordNotFound.
    replace ("Error: No record found with " ++ identifier_type headers
             ++ " '" ++ identifier ++ "'")
      with (("Error: No record found with " ++ identifier_type headers ++ " '")
            ++ identifier ++ "'").
    + apply contains_app.
    + rewrite !append_assoc. reflexivity.
Qed.

Lemma C2_first_matching_row_witness :
  fetch Mem.backend "S" "T" (Mem.one_sheet people)
  = (inr (Mem.the_sheet, ["id"; "name"] :: tl people), Mem.one_sheet people)
  /\ identifier_column ["id"; "name"] = Go 0
  /\ parse_updates ["id"; "name"] (Py.split "name=Bobby") []
     = Go [("name", "Bobby")]
  /\ [("name", "Bobby")] <> []
  /\ has_column 0 (tl people)
  /\ update_sheet_record Mem.backend "S" "T" "9" "name=Bobby"
       (Mem.one_sheet people)
     = (inr "Error: No record found with id '9'", Mem.one_sheet people).
Proof.
  assert (H1 : fetch Mem.backend "S" "T" (Mem.one_sheet people)
               = (inr (Mem.the_sheet, ["id"; "name"] :: tl people),
                  Mem.one_sheet people)) by reflexivity.
  assert (H2 : identifier_column ["id"; "name"] = Go 0) by reflexivity.
  assert (H3 : parse_updates ["id"; "name"] (Py.split "name=Bobby") []
               = Go [("name", "Bobby")]) by reflexivity.
  assert (H4 : [("name", "Bobby")] <> []) by discriminate.
  assert (H5 : has_column 0 (tl people)).
  { repeat constructor. }
  repeat (split; [assumption|]).
  destruct (C2_first_matching_row Mem.backend "S" "T" "9" "name=Bobby"
              _ _ _ _ _ _ _ H1 H2 H3 H4 H5)
    as [(k & [(r & Hk & Hm) _] & _)|(_ & _ & _ & Hrun)].
  - destruct k as [|[|k]]; simpl in Hk.
    + injection Hk as <-. discriminate Hm.
    + injection Hk as <-. discriminate Hm.
    + destruct k; discriminate Hk.
  - exact Hrun.
Defined.



(** C4.  [update_sheet_record] reads the update expression as its
    whitespace-separated tokens; a token with an ['='] is cut at its first
    ['='] into column and value (so the value keeps any later ['=']), and
    a token without ['='] changes nothing.  At the first parsed column
    that is not a header the parse stops with the unknown-column text for
    that column, the tool returns it, and the world is the one the reads
    left: no write is made.  With no such column every pair is assigned. *)
Theorem C4_update_expression_parsing {W} (be : Backend W)
    (sid title identifier updates : string) (w w' : W) (ws : Worksheet)
    (headers : row) (data_rows : grid) (c : nat) :
  fetch be sid title w = (inr (ws, headers :: data_rows), w') ->
  identifier_column headers = Go c ->
  Tokens updates (Py.split updates)
  /\ (forall kv, In kv (key_values (Py.split updates)) ->
        exists t, In t (Py.split updates)
                  /\ t = fst kv ++ String "=" (snd kv)
                  /\ Py.contains_char "=" (fst kv) = false)
  /\ (forall d,
        parse_updates headers (Py.split updates) d
        = parse_updates headers
            (filter (Py.contains_char "=") (Py.split updates)) d)
  /\ match first_unknown headers (map fst (key_values (Py.split updates))) with
     | Some col =>
         ~ In col headers
         /\ (exists before after,
               map fst (key_values (Py.split updates))
               = (before ++ col :: after)%list
               /\ Forall (fun k => In k headers) before)
         /\ parse_updates headers (Py.split updates) []
            = Return (UnknownColumn col)
         /\ update_sheet_record be sid title identifier updates w
            = (inr (UnknownColumn col), w')
     | None =>
         parse_updates headers (Py.split updates) []
         = Go (assign_all (key_values (Py.split updates)) [])
     end.
Proof.
  intros Hfetch Hc.
  split; [apply split_Tokens|].
  split; [apply key_values_tokens|].
  split; [intros d; apply parse_updates_filter|].
  pose proof (parse_updates_spec headers (Py.split updates) []) as Hp.
  destruct (first_unknown headers (map fst (key_values (Py.split updates))))
    as [col|] eqn:Hu; [|exact Hp].
  destruct (first_unknown_some _ _ _ Hu) as [Hn Hb].
  repeat split; auto.
  rewrite (update_sheet_record_run be sid title identifier updates
             w w' ws _ Hfetch).
  unfold plan_update. rewrite Hc, Hp. reflexivity.
Qed.

Lemma C4_update_expression_parsing_witness :
  fetch Mem.backend "S" "T" (Mem.one_sheet people)
  = (inr (Mem.the_sheet, ["id"; "name"] :: tl people), Mem.one_sheet people)
  /\ identifier_column ["id"; "name"] = Go 0
  /\ key_values (Py.split "  note name=a=b  age=3 id=9")
     = [("name", "a=b"); ("age", "3"); ("id", "9")]
  /\ update_sheet_record Mem.backend "S" "T" "2"
       "  note name=a=b  age=3 id=9" (Mem.one_sheet people)
     = (inr "Error: Column 'age' not found in sheet", Mem.one_sheet people).
Proof.
  assert (H1 : fetch Mem.backend "S" "T" (Mem.one_sheet people)
               = (inr (Mem.the_sheet, ["id"; "name"] :: tl people),
                  Mem.one_sheet people)) by reflexivity.
  assert (H2 : identifier_column ["id"; "name"] = Go 0) by reflexivity.
  repeat (split; [first [assumption | reflexivity]|]).
  generalize (C4_update_expression_parsing Mem.backend "S" "T" "2"
                "  note name=a=b  age=3 id=9" _ _ _ _ _ _ H1 H2).
  change (first_unknown ["id"; "name"]
            (map fst (key_values (Py.split "  note name=a=b  age=3 id=9"))))
    with (Some "age").
  intros (_ & _ & _ & _ & _ & _ & Hrun). exact Hrun.
Defined.

(** C5.  On a non-empty grid, the identifier column of
    [update_sheet_record] is the first header equal to ["id"] when there
    is one, and otherwise the first header equal to ["name"]; when the
    header row has neither, the tool returns the no-identifier-column
    text for every identifier and every update expression, and makes no
    write. *)
Theorem C5_identifier_column {W} (be : Backend W)
    (sid title : string) (w w' : W) (ws : Worksheet)
    (headers : row) (data_rows : grid) :
  fetch be sid title w = (inr (ws, headers :: data_rows), w') ->
  (In "id" headers ->
   exists i, identifier_column headers = Go i
             /\ nth_error headers i = Some "id"
             /\ forall j, j < i -> nth_error headers j <> Some "id")
  /\ (~ In "id" headers -> In "name" headers ->
      exists i, identifier_column headers = Go i
                /\ nth_error headers i = Some "name"
                /\ forall j, j < i -> nth_error headers j <> Some "name")
  /\ (~ In "id" headers -> ~ In "name" headers ->
      forall identifier updates,
        plan_update (headers :: data_rows) identifier updates
        = Return NoIdentifierColumn
        /\ update_sheet_record be sid title identifier updates w
           = (inr NoIdentifierColumn, w')).
Proof.
  intros Hfetch.
  split; [apply identifier_column_id|].
  split; [apply identifier_column_name|].
  intros Hid Hname identifier updates.
  assert (Hp : plan_update (headers :: data_rows) identifier updates
               = Return NoIdentifierColumn).
  { unfold plan_update.
    rewrite (identifier_column_none headers Hid Hname). reflexivity. }
  split; [exact Hp|].
  rewrite (update_sheet_record_run be sid title identifier updates
             w w' ws _ Hfetch), Hp.
  reflexivity.
Qed.

Lemma C5_identifier_column_witness :
  fetch Mem.backend "S" "T" (Mem.one_sheet [["sku"; "qty"]; ["A1"; "3"]])
  = (inr (Mem.the_sheet, [["sku"; "qty"]; ["A1"; "3"]]),
     Mem.one_sheet [["sku"; "qty"]; ["A1"; "3"]])
  /\ forall identifier updates,
       update_sheet_record Mem.backend "S" "T" identifier updates
         (Mem.one_sheet [["sku"; "qty"]; ["A1"; "3"]])
       = (inr "Error: Sheet must have either 'id' or 'name' column as identifier",
          Mem.one_sheet [["sku"; "qty"]; ["A1"; "3"]]).
Proof.
  assert (H1 : fetch Mem.backend "S" "T"
                 (Mem.one_sheet [["sku"; "qty"]; ["A1"; "3"]])
               = (inr (Mem.the_sheet, [["sku"; "qty"]; ["A1"; "3"]]),
                  Mem.one_sheet [["sku"; "qty"]; ["A1"; "3"]]))
    by reflexivity.
  split; [exact H1|].
  intros identifier updates.
  destruct (C5_identifier_column Mem.backend "S" "T" _ _ _ _ _ H1)
    as (_ & _ & Hnone).
  apply Hnone.
  - simpl. intros [H|[H|[]]]; discriminate H.
  - simpl. intros [H|[H|[]]]; discriminate H.
Defined.

(* ================================================================== *)
(** * [get_sheet_content] *)
(* ================================================================== *)

Import GoogleSheetsClient.

Lemma contains_char_app (c : ascii) (a b : string) :
  Py.contains_char c (a ++ b) = Py.contains_char c a || Py.contains_char c b.
Proof.
  induction a as [|x a IH]; simpl; [reflexivity|].
  rewrite IH. apply orb_assoc.
Qed.

(** A table of two lines or more has a line feed in it. *)
Lemma join_nl_has_LF (a b : string) (l : list string) :
  Py.contains_char LF (Py.join nl (a :: b :: l)) = true.
Proof.
  unfold Py.join. cbn [String.concat].
  rewrite contains_char_app. cbn [String.concat].
  change (Py.contains_char LF (nl ++ ?x)) with true.
  apply orb_true_r.
Qed.

Lemma format_sheet_data_not_sheet_is_empty (data : SheetData) :
  format_sheet_data data <> inr "Sheet is empty".
Proof.
  unfold format_sheet_data.
  destruct (sd_error data) as [err|]; [discriminate|].
  destruct (sd_data data) as [[|rows_0 rows_1]|]; try discriminate.
  cbn [is_empty app]. intros H.
  apply (f_equal (fun r => match r with
                           | inr text => Py.contains_char LF text
                           | inl _ => true
                           end)) in H.
  rewrite join_nl_has_LF in H. discriminate H.
Qed.

Lemma get_sheet_data_no_raise {W} (be : Backend W) (sid title : string)
    (w : W) :
  exists data w', get_sheet_data be sid title w = (inr data, w').
Proof.
  unfold get_sheet_data, try_catch.
  destruct (get_sheet_data_body be sid title w) as [[e|data] w']; eauto.
  destruct (Py.is_SpreadsheetNotFound e); [unfold ret; eauto|].
  destruct (Py.is_APIError e); unfold ret; eauto.
Qed.

(** The second emptiness test of [format_sheet_data] (line 193) is never
    the one that answers: no backend and no world make the tool return
    ["Sheet is empty"]. *)
Lemma get_sheet_content_not_sheet_is_empty {W} (be : Backend W)
    (sid title : string) (v : W) :
  fst (get_sheet_content be sid title v) <> inr "Sheet is empty".
Proof.
  unfold get_sheet_content, try_catch, bind, lift.
  destruct (__init__ be v) as [[e|[]] v1]; [discriminate|].
  destruct (get_sheet_data_no_raise be sid title v1) as (data & v2 & ->).
  pose proof (format_sheet_data_not_sheet_is_empty data) as Hno.
  destruct (format_sheet_data data) as [e|text]; [discriminate|].
  exact Hno.
Qed.

(** C6: the code misses the claim on the grid without rows.  When the
    grid read from the sheet has no rows, [get_sheet_content] returns
    ["No data found in the sheet"], not ["Sheet is empty"]: the first
    emptiness test of [format_sheet_data] (line 189, [not data["data"]])
    answers for every dictionary whose ["data"] is the empty list, so the
    test written for that grid (lines 192-194, [if not rows: return
    "Sheet is empty"]) is never reached, in this run or in any other;
    [update_sheet_record] (line 375) does answer the same grid with its
    sheet-is-empty text. *)
Theorem C6_empty_grid_text {W} (be : Backend W) (sid title : string)
    (w w1 w' : W) (t : option string) :
  __init__ be w = (inr tt, w1) ->
  get_sheet_data_body be sid title w1
  = (inr {| sd_error := None; sd_title := t; sd_data := Some [] |}, w') ->
  format_sheet_data {| sd_error := None; sd_title := t; sd_data := Some [] |}
  = inr "No data found in the sheet"
  /\ get_sheet_content be sid title w
     = (inr "No data found in the sheet", w')
  /\ (forall sid0 title0 v,
        fst (get_sheet_content be sid0 title0 v) <> inr "Sheet is empty")
  /\ (forall identifier updates,
        plan_update [] identifier updates = Return "Error: Sheet is empty").
Proof.
  intros Hinit Hbody. split; [reflexivity|]. split.
  - unfold get_sheet_content, get_sheet_data, try_catch, bind, lift.
    rewrite Hinit, Hbody. reflexivity.
  - split; [|reflexivity].
    intros sid0 title0 v. apply get_sheet_content_not_sheet_is_empty.
Qed.

Lemma C6_empty_grid_text_witness :
  __init__ Mem.backend (Mem.one_sheet []) = (inr tt, Mem.one_sheet [])
  /\ get_sheet_data_body Mem.backend "S" "T" (Mem.one_sheet [])
     = (inr {| sd_error := None; sd_title := Some "T"; sd_data := Some [] |},
        Mem.one_sheet [])
  /\ get_sheet_content Mem.backend "S" "T" (Mem.one_sheet [])
     = (inr "No data found in the sheet", Mem.one_sheet []).
Proof.
  assert (H1 : __init__ Mem.backend (Mem.one_sheet [])
               = (inr tt, Mem.one_sheet [])) by reflexivity.
  assert (H2 : get_sheet_data_body Mem.backend "S" "T" (Mem.one_sheet [])
               = (inr {| sd_error := None; sd_title := Some "T";
                         sd_data := Some [] |}, Mem.one_sheet []))
    by reflexivity.
  repeat (split; [assumption|]).
  exact (proj1 (proj2 (C6_empty_grid_text Mem.backend "S" "T" _ _ _ _ H1 H2))).
Defined.

(** C6 at the failing input: for the sheet without rows the result is
    ["No data found in the sheet"], not ["Sheet is empty"]; nor is it
    ["Sheet is empty"] for the sheet of one row without cells. *)
Lemma C6_counterexample :
  fst (get_sheet_content Mem.backend "S" "T" (Mem.one_sheet []))
  = inr "No data found in the sheet"
  /\ fst (get_sheet_content Mem.backend "S" "T" (Mem.one_sheet []))
     <> inr "Sheet is empty"
  /\ fst (get_sheet_content Mem.backend "S" "T" (Mem.one_sheet [[]]))
     <> inr "Sheet is empty".
Proof. repeat split; discriminate. Qed.

(** A sheet with its header row only. *)
Example header_only_table :
  fst (get_sheet_content Mem.backend "S" "T" (Mem.one_sheet [["id"; "name"]]))
  = inr ("id | name" ++ nl ++ "---------").
Proof. reflexivity. Qed.

(* ================================================================== *)
(** * Appending rows *)
(* ================================================================== *)

Section MemFacts.
Import Mem.

(** The range the client builds names the row it computed. *)
Lemma parse_A1_str_of_nat (n : nat) :
  parse_A1 ("A" ++ Py.str_of_nat n) = Some n.
Proof.
  unfold parse_A1, Py.str_of_nat. simpl.
  rewrite NilEmpty.usu. simpl. rewrite Unsigned.of_to. reflexivity.
Qed.

Lemma overlay_rows_nil (data : grid) : overlay_rows data [] = data.
Proof. induction data as [|d data IH]; simpl; congruence. Qed.

(** Writing just below the last row appends. *)
Lemma write_rows_below (data g : grid) :
  write_rows (length g) data g = (g ++ data)%list.
Proof.
  induction g as [|r g IH]; simpl.
  - apply overlay_rows_nil.
  - rewrite IH. reflexivity.
Qed.

(** Writing below [skip] rows leaves those rows as they are. *)
Lemma write_rows_keeps (skip : nat) (data g : grid) (i : nat) :
  i < skip -> i < length g ->
  nth_error (write_rows skip data g) i = nth_error g i.
Proof.
  revert g i. induction skip as [|k IH]; intros g i Hi Hg; [lia|].
  destruct g as [|r g]; simpl in *; [lia|].
  destruct i as [|i]; simpl; [reflexivity|].
  apply IH; lia.
Qed.

Lemma find_book_id (id : string) (l : list book) (b : book) :
  find_book id l = Some b -> sp_id (bk_info b) = id.
Proof.
  induction l as [|x l IH]; simpl; [discriminate|].
  destruct (String.eqb (sp_id (bk_info x)) id) eqn:E; [|exact IH].
  intros [= <-]. apply String.eqb_eq, E.
Qed.

Lemma find_sheet_title (title : string) (l : list sheet) (s : sheet) :
  find_sheet title l = Some s -> sh_title s = title.
Proof.
  induction l as [|x l IH]; simpl; [discriminate|].
  destruct (String.eqb (sh_title x) title) eqn:E; [|exact IH].
  intros [= <-]. apply String.eqb_eq, E.
Qed.

Lemma find_sheet_put (title : string) (g : grid) (l : list sheet) (s : sheet) :
  find_sheet title l = Some s ->
  find_sheet title (put_sheet title g l)
  = Some {| sh_title := sh_title s; sh_row_count := sh_row_count s;
            sh_col_count := sh_col_count s; sh_values := g |}.
Proof.
  induction l as [|x l IH]; simpl; [discriminate|].
  destruct (String.eqb (sh_title x) title) eqn:E; simpl; rewrite E.
  - intros [= <-]. reflexivity.
  - exact IH.
Qed.

Lemma find_book_put (id title : string) (g : grid) (l : list book) (b : book) :
  find_book id l = Some b ->
  find_book id (put_book id title g l)
  = Some {| bk_info := bk_info b;
            bk_sheets := put_sheet title g (bk_sheets b) |}.
Proof.
  induction l as [|x l IH]; simpl; [discriminate|].
  destruct (String.eqb (sp_id (bk_info x)) id) eqn:E; simpl; rewrite E.
  - intros [= <-]. reflexivity.
  - exact IH.
Qed.

Lemma lookup_store (w : world) (id title : string) (g : grid) (ev : event)
    (s : sheet) :
  lookup w id title = Some s ->
  option_map sh_values (lookup (store w id title g ev) id title) = Some g.
Proof.
  unfold lookup, store. simpl.
  destruct (find_book id (books w)) as [b|] eqn:Hb; [|discriminate].
  intros Hs. rewrite (find_book_put id title g _ b Hb). simpl.
  rewrite (find_sheet_put title g _ s Hs). reflexivity.
Qed.

(** The client's [add_data_to_sheet] on a sheet of the in-memory
    backend. *)
Lemma mem_add_data_to_sheet (w : world) (sid title : string) (s : sheet)
    (data : list Py.pyobj) (rows : grid) :
  fault w = None ->
  lookup w sid title = Some s ->
  all_some row_of data = Some rows ->
  add_data_to_sheet backend sid title data w
  = (inr true,
     store w sid title (sh_values s ++ rows)%list
       (Update sid title ("A" ++ Py.str_of_nat (length (sh_values s) + 1))
          rows)).
Proof.
  intros Hfault Hl Hrows.
  pose proof Hl as Hl0. unfold lookup in Hl0.
  destruct (find_book sid (books w)) as [b|] eqn:Hb; [|discriminate].
  pose proof (find_book_id _ _ _ Hb) as Hid.
  pose proof (find_sheet_title _ _ _ Hl0) as Ht.
  unfold add_data_to_sheet, add_data_to_sheet_body, try_catch, bind, ret.
  cbn [open_by_key worksheet get_all_values update backend].
  unfold mem_open_by_key, mem_worksheet, mem_get_all_values, mem_update,
    request, with_sheet, ret.
  repeat first
    [ rewrite Hfault | rewrite Hb | rewrite Hid | rewrite Hl | rewrite Ht
    | rewrite parse_A1_str_of_nat | rewrite Hrows
    | progress cbv beta iota zeta
    | progress cbn [handle ws_spreadsheet ws_title] ].
  replace (length (sh_values s) + 1) with (S (length (sh_values s))) by lia.
  cbv beta iota zeta. rewrite ?Hfault. cbv beta iota zeta.
  rewrite ?write_rows_below. reflexivity.
Qed.

End MemFacts.

(** On the in-memory backend the sheet then holds its former rows,
    unchanged and in place, followed by the new rows in the order
    given. *)
Lemma mem_append_keeps_rows (w : Mem.world) (sid title : string)
    (s : Mem.sheet) (data : list Py.pyobj) (rows : grid) :
  Mem.fault w = None ->
  Mem.lookup w sid title = Some s ->
  Mem.all_some Mem.row_of data = Some rows ->
  exists w' s',
    GoogleSheetsClient.add_data_to_sheet Mem.backend sid title data w
    = (inr true, w')
    /\ Mem.lookup w' sid title = Some s'
    /\ Mem.sh_values s' = (Mem.sh_values s ++ rows)%list
    /\ (forall i, i < length (Mem.sh_values s) ->
          nth_error (Mem.sh_values s') i = nth_error (Mem.sh_values s) i)
    /\ (forall j, nth_error (Mem.sh_values s') (length (Mem.sh_values s) + j)
                  = nth_error rows j).
Proof.
  intros Hfault Hl Hrows.
  set (ev := Mem.Update sid title
               ("A" ++ Py.str_of_nat (length (Mem.sh_values s) + 1)) rows).
  exists (Mem.store w sid title (Mem.sh_values s ++ rows)%list ev).
  pose proof (lookup_store w sid title (Mem.sh_values s ++ rows)%list ev s Hl)
    as Hs.
  destruct (Mem.lookup (Mem.store w sid title (Mem.sh_values s ++ rows)%list ev)
              sid title) as [s'|]; [|discriminate].
  simpl in Hs. injection Hs as Hs. exists s'.
  split; [apply (mem_add_data_to_sheet w sid title s data rows); assumption|].
  split; [reflexivity|].
  split; [exact Hs|]. rewrite Hs. split.
  - intros i Hi. apply nth_error_app1. exact Hi.
  - intros j. rewrite nth_error_app2 by lia. f_equal. lia.
Qed.

(** Whatever the backend, the one write the client asks for starts at
    the row after the rows it has just read. *)
Lemma add_data_to_sheet_range {W} (be : Backend W) (sid title : string)
    (data : list Py.pyobj) (w w1 w2 w3 : W) (sp : Spreadsheet)
    (ws : Worksheet) (values : grid) :
  open_by_key be sid w = (inr sp, w1) ->
  worksheet be sp title w1 = (inr ws, w2) ->
  get_all_values be ws w2 = (inr values, w3) ->
  GoogleSheetsClient.add_data_to_sheet be sid title data w
  = match update be ws ("A" ++ Py.str_of_nat (length values + 1)) data w3 with
    | (inr _, w4) => (inr true, w4)
    | (inl _, w4) => (inr false, w4)
    end.
Proof.
  intros H1 H2 H3.
  unfold GoogleSheetsClient.add_data_to_sheet, add_data_to_sheet_body,
    try_catch, bind, ret.
  rewrite H1, H2, H3.
  destruct (update be ws _ data w3) as [[e|[]] w4]; reflexivity.
Qed.

(** The content of a grid is a prefix of it. *)
Lemma content_length (values : grid) :
  length (content values) <= length values.
Proof.
  induction values as [|r rest IH]; simpl; [lia|].
  destruct (content rest) as [|x below]; [destruct (blank r)|]; simpl in *; lia.
Qed.

(** A grid is its own content exactly when it is empty or its last row
    has content. *)
Lemma content_all (values : grid) :
  content values = values <-> length (content values) = length values.
Proof.
  split; [intros ->; reflexivity|].
  induction values as [|r rest IH]; simpl; [reflexivity|].
  pose proof (content_length rest) as Hle.
  destruct (content rest) as [|x below] eqn:E.
  - destruct (blank r); simpl; [discriminate|].
    intros H. destruct rest; [reflexivity|discriminate].
  - simpl. intros H. f_equal. apply IH. simpl. lia.
Qed.

Lemma content_last (values : grid) (r : row) :
  blank r = false -> content (values ++ [r])%list = (values ++ [r])%list.
Proof.
  intros Hr. induction values as [|x rest IH]; simpl.
  - rewrite Hr. reflexivity.
  - rewrite IH. destruct (rest ++ [r])%list eqn:E; [|reflexivity].
    destruct rest; discriminate.
Qed.

(** C7: the code misses the claim on the empty sheet.  For every
    backend and every payload the client's [add_data_to_sheet] issues one
    [update], with the payload as given, at the row after the rows
    [get_all_values] returned in this call (line 230,
    [len(worksheet.get_all_values()) + 1]).  That row is never above the
    first empty row of the sheet, so no row with content is in the range
    written, and it is the first empty row exactly when the grid read is
    empty or ends in a row with content.  The comment of line 229 asks for
    the next empty row; but the empty sheet is read as one row without
    cells, for which the code computes row 2 where the first empty row
    is 1. *)
Theorem C7_append_rows {W} (be : Backend W) (sid title : string)
    (data : list Py.pyobj) (w w1 w2 w3 : W) (sp : Spreadsheet)
    (ws : Worksheet) (values : grid) :
  open_by_key be sid w = (inr sp, w1) ->
  worksheet be sp title w1 = (inr ws, w2) ->
  get_all_values be ws w2 = (inr values, w3) ->
  GoogleSheetsClient.add_data_to_sheet be sid title data w
  = match update be ws ("A" ++ Py.str_of_nat (length values + 1)) data w3 with
    | (inr _, w4) => (inr true, w4)
    | (inl _, w4) => (inr false, w4)
    end
  /\ first_empty_row values <= length values + 1
  /\ (length values + 1 = first_empty_row values <-> content values = values)
  /\ (forall r, blank r = false ->
        length (values ++ [r])%list + 1 = first_empty_row (values ++ [r])%list)
  /\ (values = [[]] ->
      first_empty_row values = 1
      /\ "A" ++ Py.str_of_nat (length values + 1) = "A2").
Proof.
  intros H1 H2 H3.
  split; [exact (add_data_to_sheet_range be sid title data w w1 w2 w3 sp ws
                   values H1 H2 H3)|].
  unfold first_empty_row. pose proof (content_length values) as Hle.
  split; [lia|]. split; [|split].
  - rewrite content_all. lia.
  - intros r Hr. rewrite (content_last values r Hr). reflexivity.
  - intros ->. split; reflexivity.
Qed.

Lemma C7_append_rows_witness :
  open_by_key Mem.backend "S" (Mem.one_sheet [[]])
  = (inr {| sp_title := "Book"; sp_id := "S";
            sp_url := "https://docs.google.com/spreadsheets/d/S" |},
     Mem.one_sheet [[]])
  /\ worksheet Mem.backend
       {| sp_title := "Book"; sp_id := "S";
          sp_url := "https://docs.google.com/spreadsheets/d/S" |} "T"
       (Mem.one_sheet [[]])
     = (inr Mem.the_sheet, Mem.one_sheet [[]])
  /\ get_all_values Mem.backend Mem.the_sheet (Mem.one_sheet [[]])
     = (inr [[]], Mem.one_sheet [[]])
  /\ append_ab (Mem.one_sheet [[]])
     = match update Mem.backend Mem.the_sheet "A2"
               [Py.PyList [Py.PyStr "a"; Py.PyStr "b"]] (Mem.one_sheet [[]])
       with
       | (inr _, w4) => (inr true, w4)
       | (inl _, w4) => (inr false, w4)
       end
  /\ first_empty_row [[]] = 1.
Proof.
  assert (H1 : open_by_key Mem.backend "S" (Mem.one_sheet [[]])
               = (inr {| sp_title := "Book"; sp_id := "S";
                         sp_url := "https://docs.google.com/spreadsheets/d/S" |},
                  Mem.one_sheet [[]])) by reflexivity.
  assert (H2 : worksheet Mem.backend
                 {| sp_title := "Book"; sp_id := "S";
                    sp_url := "https://docs.google.com/spreadsheets/d/S" |} "T"
                 (Mem.one_sheet [[]])
               = (inr Mem.the_sheet, Mem.one_sheet [[]])) by reflexivity.
  assert (H3 : get_all_values Mem.backend Mem.the_sheet (Mem.one_sheet [[]])
               = (inr [[]], Mem.one_sheet [[]])) by reflexivity.
  repeat (split; [assumption|]).
  destruct (C7_append_rows Mem.backend "S" "T"
              [Py.PyList [Py.PyStr "a"; Py.PyStr "b"]] _ _ _ _ _ _ _ H1 H2 H3)
    as (Hrun & _ & _ & _ & Hempty).
  split; [exact Hrun | exact (proj1 (Hempty eq_refl))].
Defined.

(** C7 at the failing input: two calls of one row each on the empty
    sheet write row 2 and then row 3, not row 1 and then row 2, and row 1
    is left without cells. *)
Lemma C7_counterexample :
  fst (append_ab (Mem.one_sheet [[]])) = inr true
  /\ fst (append_cd (snd (append_ab (Mem.one_sheet [[]])))) = inr true
  /\ Mem.log (snd (append_cd (snd (append_ab (Mem.one_sheet [[]])))))
     = [Mem.Update "S" "T" "A2" [["a"; "b"]];
        Mem.Update "S" "T" "A3" [["c"; "d"]]]
  /\ Mem.grid_of (snd (append_cd (snd (append_ab (Mem.one_sheet [[]])))))
     = Some [[]; ["a"; "b"]; ["c"; "d"]]
  /\ Mem.log (snd (append_cd (snd (append_ab (Mem.one_sheet [[]])))))
     <> [Mem.Update "S" "T" "A1" [["a"; "b"]];
         Mem.Update "S" "T" "A2" [["c"; "d"]]].
Proof.
  repeat split; try reflexivity.
  vm_compute. discriminate.
Qed.

(* ================================================================== *)
(** * The payload of [add_data_to_sheet] *)
(* ================================================================== *)

Lemma parse_data_str_cases (py_eval : string -> result Py.pyobj)
    (data_str : string) :
  parse_data_str py_eval data_str
  = match py_eval data_str with
    | inr (Py.PyList items) => Go items
    | _ => Go (csv_lines data_str)
    end.
Proof.
  unfold parse_data_str, parse_literal, parse_csv.
  destruct (py_eval data_str) as [e|[]]; reflexivity.
Qed.

(** The tool, step by step: the session, the payload, the client. *)
Lemma add_data_to_sheet_run {W} (be : Backend W)
    (py_eval : string -> result Py.pyobj) (sid title data_str : string)
    (w : W) :
  Server.add_data_to_sheet be py_eval sid title data_str w
  = match __init__ be w with
    | (inl e, w1) => (inr (error_text e), w1)
    | (inr _, w1) =>
        match parse_data_str py_eval data_str with
        | Return text => (inr text, w1)
        | Raise e => (inr (error_text e), w1)
        | Go data =>
            match GoogleSheetsClient.add_data_to_sheet be sid title data w1 with
            | (inr true, w2) =>
                (inr ("Successfully added " ++ Py.str_of_nat (length data)
                      ++ " records to " ++ title), w2)
            | (inr false, w2) =>
                (inr "Error: Failed to add data to the sheet", w2)
            | (inl e, w2) => (inr (error_text e), w2)
            end
        end
    end.
Proof.
  unfold Server.add_data_to_sheet, try_catch, bind, ret, raise.
  destruct (__init__ be w) as [[e|[]] w1]; [reflexivity|].
  destruct (parse_data_str py_eval data_str) as [data|text|e];
    try reflexivity.
  destruct (GoogleSheetsClient.add_data_to_sheet be sid title data w1)
    as [[e|[|]] w2]; reflexivity.
Qed.


Example payload_as_literal :
  parse_data_str Mem.eval_table "[['a','b']]"
  = Go [Py.PyList [Py.PyStr "a"; Py.PyStr "b"]].
Proof. reflexivity. Qed.

Example payload_as_csv :
  fst (Server.add_data_to_sheet Mem.backend Mem.eval_table "S" "T"
         ("a,b" ++ nl ++ "c,d") (Mem.one_sheet people))
  = inr "Successfully added 2 records to T"
  /\ Mem.grid_of
       (snd (Server.add_data_to_sheet Mem.backend Mem.eval_table "S" "T"
               ("a,b" ++ nl ++ "c,d") (Mem.one_sheet people)))
     = Some (people ++ [["a"; "b"]; ["c"; "d"]])%list.
Proof. split; reflexivity. Qed.

(** C10.  The comma-separated reading of a payload cannot fail: it
    always yields a non-empty list of non-empty lists of strings, so the
    format error text is never the outcome of reading a payload.  Hence,
    once the client is constructed, every payload that does not evaluate
    to a list is handed to the client's [add_data_to_sheet] in its
    comma-separated reading; a payload of whitespace only (the empty one
    included) is handed over as the single row of one empty string. *)
Theorem C10_csv_fallback_total {W} (be : Backend W)
    (py_eval : string -> result Py.pyobj) (sid title data_str : string)
    (w w1 : W) :
  __init__ be w = (inr tt, w1) ->
  (forall items, py_eval data_str <> inr (Py.PyList items)) ->
  csv_lines data_str <> []
  /\ Forall (fun v => exists cells, v = Py.PyList (map Py.PyStr cells)
                                    /\ cells <> [])
       (csv_lines data_str)
  /\ parse_csv data_str = inr (csv_lines data_str)
  /\ (forall py_eval' s, exists data, parse_data_str py_eval' s = Go data)
  /\ parse_data_str py_eval data_str = Go (csv_lines data_str)
  /\ Server.add_data_to_sheet be py_eval sid title data_str w
     = match GoogleSheetsClient.add_data_to_sheet be sid title
               (csv_lines data_str) w1 with
       | (inr true, w2) =>
           (inr ("Successfully added "
                 ++ Py.str_of_nat (length (csv_lines data_str))
                 ++ " records to " ++ title), w2)
       | (inr false, w2) => (inr "Error: Failed to add data to the sheet", w2)
       | (inl e, w2) => (inr (error_text e), w2)
       end
  /\ (all_space data_str = true ->
      csv_lines data_str = [Py.PyList [Py.PyStr ""]]).
Proof.
  intros Hinit Heval.
  assert (Hparse : parse_data_str py_eval data_str = Go (csv_lines data_str)).
  { rewrite parse_data_str_cases.
    destruct (py_eval data_str) as [e|[]]; try reflexivity.
    exfalso. eapply Heval. reflexivity. }
  split; [|split; [|split; [|split; [|split; [|split]]]]].
  - unfold csv_lines. intros H. apply map_eq_nil in H.
    exact (split_on_nonempty _ _ H).
  - unfold csv_lines. apply Forall_map, Forall_forall. intros line _.
    exists (Py.split_on "," line). split; [reflexivity|].
    apply split_on_nonempty.
  - reflexivity.
  - intros py_eval' s. rewrite parse_data_str_cases.
    destruct (py_eval' s) as [e|[]]; eauto.
  - exact Hparse.
  - rewrite add_data_to_sheet_run, Hinit, Hparse. reflexivity.
  - intros Hs. unfold csv_lines. rewrite (all_space_strip _ Hs). reflexivity.
Qed.

Lemma C10_csv_fallback_total_witness :
  __init__ Mem.backend (Mem.one_sheet people) = (inr tt, Mem.one_sheet people)
  /\ (forall items, Mem.eval_table "   " <> inr (Py.PyList items))
  /\ parse_data_str Mem.eval_table "   " = Go [Py.PyList [Py.PyStr ""]]
  /\ Server.add_data_to_sheet Mem.backend Mem.eval_table "S" "T" "   "
       (Mem.one_sheet people)
     = (inr "Successfully added 1 records to T",
        Mem.store (Mem.one_sheet people) "S" "T" (people ++ [[""]])%list
          (Mem.Update "S" "T" "A4" [[""]])).
Proof.
  assert (H1 : __init__ Mem.backend (Mem.one_sheet people)
               = (inr tt, Mem.one_sheet people)) by reflexivity.
  assert (H2 : forall items, Mem.eval_table "   " <> inr (Py.PyList items))
    by (intros items; discriminate).
  repeat (split; [assumption|]).
  destruct (C10_csv_fallback_total Mem.backend Mem.eval_table "S" "T" "   "
              _ _ H1 H2) as (_ & _ & _ & _ & Hparse & Hrun & _).
  split; [exact Hparse | exact Hrun].
Defined.

(* ================================================================== *)
(** * Error texts *)
(* ================================================================== *)

(** C9 as the code has it.  When the construction of the client or the
    body of the client method raises [e], then [list_spreadsheets]
    answers with an error record whose text contains [str(e)]; so do
    [get_spreadsheet_info] and [get_sheet_content], except that a
    [SpreadsheetNotFound] raised in the client method is answered with a
    fixed text.  On the append
    path the client method answers any exception with [False], and the
    tool returns the fixed text
    ["Error: Failed to add data to the sheet"]. *)
Theorem C9_backend_messages {W} (be : Backend W)
    (py_eval : string -> result Py.pyobj) (sid title : string)
    (w w' : W) (e : Py.exn) :
  ((__init__ be ;; get_all_spreadsheets_body be)%py w = (inl e, w') ->
   exists text,
     list_spreadsheets be w = (inr [[("error", text)]], w')
     /\ Py.contains (Py.exn_str e) text = true)
  /\ (Py.is_SpreadsheetNotFound e = false ->
      (__init__ be ;; get_spreadsheet_info_body be sid)%py w = (inl e, w') ->
      exists text,
        Server.get_spreadsheet_info be sid w = (inr (error_dict text), w')
        /\ Py.contains (Py.exn_str e) text = true)
  /\ (Py.is_SpreadsheetNotFound e = false ->
      (__init__ be ;; get_sheet_data_body be sid title)%py w = (inl e, w') ->
      exists text,
        get_sheet_content be sid title w = (inr text, w')
        /\ Py.contains (Py.exn_str e) text = true)
  /\ (forall w1,
        Py.is_SpreadsheetNotFound e = true ->
        __init__ be w = (inr tt, w1) ->
        (get_spreadsheet_info_body be sid w1 = (inl e, w') ->
         Server.get_spreadsheet_info be sid w
         = (inr (error_dict not_found_text), w'))
        /\ (get_sheet_data_body be sid title w1 = (inl e, w') ->
            get_sheet_content be sid title w
            = (inr ("Error: " ++ not_found_text), w')))
  /\ (forall data_str data w1,
        __init__ be w = (inr tt, w1) ->
        parse_data_str py_eval data_str = Go data ->
        add_data_to_sheet_body be sid title data w1 = (inl e, w') ->
        Server.add_data_to_sheet be py_eval sid title data_str w
        = (inr "Error: Failed to add data to the sheet", w')).
Proof.
  split; [|split; [|split; [|split]]].
  - unfold list_spreadsheets, get_all_spreadsheets, try_catch, bind, ret.
    destruct (__init__ be w) as [[e0|[]] w1].
    + intros [= -> ->]. eexists. split; [reflexivity | apply contains_refl].
    + intros ->. destruct (Py.is_APIError e); eexists;
        (split; [reflexivity|]).
      * apply contains_suffix.
      * apply contains_refl.
  - intros Hnf.
    unfold Server.get_spreadsheet_info, GoogleSheetsClient.get_spreadsheet_info,
      try_catch, bind, ret.
    destruct (__init__ be w) as [[e0|[]] w1].
    + intros [= -> ->]. eexists. split; [reflexivity | apply contains_refl].
    + intros ->. rewrite Hnf. destruct (Py.is_APIError e); eexists;
        (split; [reflexivity|]).
      * apply contains_suffix.
      * apply contains_refl.
  - intros Hnf.
    unfold get_sheet_content, get_sheet_data, try_catch, bind, ret, lift.
    destruct (__init__ be w) as [[e0|[]] w1].
    + intros [= -> ->]. eexists. split; [reflexivity|].
      apply contains_suffix.
    + intros ->. rewrite Hnf. destruct (Py.is_APIError e); eexists;
        (split; [reflexivity|]).
      * apply (contains_suffix "Error: API Error: ").
      * apply (contains_suffix "Error: ").
  - intros w1 Hnf Hinit. split; intros Hbody.
    + unfold Server.get_spreadsheet_info,
        GoogleSheetsClient.get_spreadsheet_info, try_catch, bind, ret.
      rewrite Hinit, Hbody, Hnf. reflexivity.
    + unfold get_sheet_content, get_sheet_data, try_catch, bind, ret, lift.
      rewrite Hinit, Hbody, Hnf. reflexivity.
  - intros data_str data w1 Hinit Hparse Hbody.
    rewrite add_data_to_sheet_run, Hinit, Hparse.
    unfold GoogleSheetsClient.add_data_to_sheet, try_catch.
    rewrite Hbody. reflexivity.
Qed.

Lemma C9_backend_messages_witness :
  Py.is_SpreadsheetNotFound Mem.quota_exceeded = false
  /\ (__init__ Mem.backend ;; get_all_spreadsheets_body Mem.backend)%py
       Mem.over_quota
     = (inl Mem.quota_exceeded, Mem.over_quota)
  /\ (__init__ Mem.backend ;; get_spreadsheet_info_body Mem.backend "S")%py
       Mem.over_quota
     = (inl Mem.quota_exceeded, Mem.over_quota)
  /\ (__init__ Mem.backend ;; get_sheet_data_body Mem.backend "S" "T")%py
       Mem.over_quota
     = (inl Mem.quota_exceeded, Mem.over_quota)
  /\ (exists text,
        list_spreadsheets Mem.backend Mem.over_quota
        = (inr [[("error", text)]], Mem.over_quota)
        /\ Py.contains "Quota exceeded" text = true)
  /\ (exists text,
        Server.get_spreadsheet_info Mem.backend "S" Mem.over_quota
        = (inr (error_dict text), Mem.over_quota)
        /\ Py.contains "Quota exceeded" text = true)
  /\ (exists text,
        get_sheet_content Mem.backend "S" "T" Mem.over_quota
        = (inr text, Mem.over_quota)
        /\ Py.contains "Quota exceeded" text = true)
  /\ Server.add_data_to_sheet Mem.backend Mem.eval_table "S" "T" "2,Bob"
       Mem.over_quota
     = (inr "Error: Failed to add data to the sheet", Mem.over_quota).
Proof.
  assert (H0 : Py.is_SpreadsheetNotFound Mem.quota_exceeded = false)
    by reflexivity.
  assert (H1 : (__init__ Mem.backend ;; get_all_spreadsheets_body Mem.backend)%py
                 Mem.over_quota
               = (inl Mem.quota_exceeded, Mem.over_quota)) by reflexivity.
  assert (H2 : (__init__ Mem.backend ;;
                get_spreadsheet_info_body Mem.backend "S")%py Mem.over_quota
               = (inl Mem.quota_exceeded, Mem.over_quota)) by reflexivity.
  assert (H3 : (__init__ Mem.backend ;;
                get_sheet_data_body Mem.backend "S" "T")%py Mem.over_quota
               = (inl Mem.quota_exceeded, Mem.over_quota)) by reflexivity.
  repeat (split; [assumption|]).
  destruct (C9_backend_messages Mem.backend Mem.eval_table "S" "T"
              Mem.over_quota Mem.over_quota Mem.quota_exceeded)
    as (Hlist & Hinfo & Hcontent & _ & Happend).
  split; [exact (Hlist H1)|].
  split; [exact (Hinfo H0 H2)|].
  split; [exact (Hcontent H0 H3)|].
  apply (Happend "2,Bob" [Py.PyList [Py.PyStr "2"; Py.PyStr "Bob"]]
           Mem.over_quota); reflexivity.
Defined.

(** C9 as stated fails on the append path: the backend refuses the
    request with ["Quota exceeded"], and the text the tool returns does
    not contain that message. *)
Lemma C9_counterexample :
  add_data_to_sheet_body Mem.backend "S" "T"
    [Py.PyList [Py.PyStr "2"; Py.PyStr "Bob"]] Mem.over_quota
  = (inl (Py.Exn Py.APIError "Quota exceeded"), Mem.over_quota)
  /\ fst (Server.add_data_to_sheet Mem.backend Mem.eval_table "S" "T" "2,Bob"
            Mem.over_quota)
     = inr "Error: Failed to add data to the sheet"
  /\ Py.contains "Quota exceeded" "Error: Failed to add data to the sheet"
     = false.
Proof. repeat split; reflexivity. Qed.

(* ================================================================== *)
(** * Further properties of the server *)
(* ================================================================== *)

(** [format_sheet_data] answers every dictionary of [get_sheet_data]
    with a text. *)
Lemma format_sheet_data_returns (data : SheetData) :
  exists text, format_sheet_data data = inr text.
Proof.
  unfold format_sheet_data.
  destruct (sd_error data); [eauto|].
  destruct (sd_data data) as [[|r rows]|]; simpl; eauto.
Qed.

(** ** [generate_sheet_data] *)

(** [generate_sheet_data] never returns records.  Once the client is
    constructed it answers with the could-not-get-attributes text when
    the header row is empty or could not be read, and otherwise with
    ["Error: No data was generated by the LLM"], whatever number of
    records was asked for; and in every world its answer is an error
    text. *)
Theorem generate_sheet_data_no_data {W} (be : Backend W)
    (py_str : Py.pyobj -> string) (sid title : string) (n : Z)
    (w w1 w2 : W) (attributes : list string) :
  __init__ be w = (inr tt, w1) ->
  get_sheet_attributes be sid title w1 = (inr attributes, w2) ->
  generate_sheet_data be py_str sid title n w
  = (inr (if is_empty attributes then no_attributes_text
          else "Error: No data was generated by the LLM"), w2)
  /\ forall (m : Z) (v : W),
       exists text v',
         generate_sheet_data be py_str sid title m v = (inr text, v')
         /\ String.prefix "Error: " text = true.
Proof.
  intros Hinit Hattr. split.
  - unfold generate_sheet_data, try_catch, bind, ret.
    rewrite Hinit, Hattr. destruct (is_empty attributes); reflexivity.
  - intros m v. unfold generate_sheet_data, try_catch, bind, ret.
    destruct (__init__ be v) as [[e|[]] v1].
    + eexists; eexists; split; [reflexivity|].
      apply (prefix_app "Error: ").
    + destruct (get_sheet_attributes be sid title v1) as [[e|attrs] v2].
      * eexists; eexists; split; [reflexivity|].
        apply (prefix_app "Error: ").
      * destruct (is_empty attrs); eexists; eexists;
          (split; [reflexivity|]); reflexivity.
Qed.

Lemma generate_sheet_data_no_data_witness :
  __init__ Mem.backend (Mem.one_sheet people) = (inr tt, Mem.one_sheet people)
  /\ get_sheet_attributes Mem.backend "S" "T" (Mem.one_sheet people)
     = (inr ["id"; "name"], Mem.one_sheet people)
  /\ generate_sheet_data Mem.backend (fun _ => "[]") "S" "T" 5
       (Mem.one_sheet people)
     = (inr "Error: No data was generated by the LLM", Mem.one_sheet people).
Proof.
  assert (H1 : __init__ Mem.backend (Mem.one_sheet people)
               = (inr tt, Mem.one_sheet people)) by reflexivity.
  assert (H2 : get_sheet_attributes Mem.backend "S" "T" (Mem.one_sheet people)
               = (inr ["id"; "name"], Mem.one_sheet people)) by reflexivity.
  repeat (split; [assumption|]).
  exact (proj1 (generate_sheet_data_no_data Mem.backend (fun _ => "[]")
                  "S" "T" 5 _ _ _ _ H1 H2)).
Defined.

(** ** The order of the checks of [update_sheet_record] *)

Lemma dict_set_nonempty (d : Py.dict string) (k v : string) :
  Py.dict_set d k v <> [].
Proof.
  destruct d as [|[k' v'] d]; simpl; [discriminate|].
  destruct (String.eqb k' k); discriminate.
Qed.

Lemma assign_all_nonempty (pairs : list (string * string))
    (d : Py.dict string) :
  d <> [] \/ pairs <> [] -> assign_all pairs d <> [].
Proof.
  revert d. induction pairs as [|[k v] pairs IH]; simpl; intros d H.
  - destruct H as [H|H]; [exact H | congruence].
  - apply IH. left. apply dict_set_nonempty.
Qed.

Lemma identifier_column_cases (headers : row) :
  match identifier_column headers with
  | Go c => (In "id" headers \/ In "name" headers)
            /\ nth_error headers c = Some (identifier_type headers)
  | Return t => t = NoIdentifierColumn
                /\ ~ In "id" headers /\ ~ In "name" headers
  | Raise _ => False
  end.
Proof.
  unfold identifier_type.
  destruct (Py.mem "id" headers) eqn:Hid.
  - apply mem_In in Hid.
    destruct (identifier_column_id headers Hid) as (i & -> & Hn & _). auto.
  - apply mem_false_In in Hid.
    destruct (Py.mem "name" headers) eqn:Hname.
    + apply mem_In in Hname.
      destruct (identifier_column_name headers Hid Hname) as (i & -> & Hn & _).
      auto.
    + apply mem_false_In in Hname.
      rewrite (identifier_column_none headers Hid Hname). auto.
Qed.

Lemma plan_update_cases (headers : row) (data_rows : grid)
    (identifier updates : string) (c : nat) :
  identifier_column headers = Go c ->
  plan_update (headers :: data_rows) identifier updates
  = match first_unknown headers (map fst (key_values (Py.split updates))) with
    | Some col => Return (UnknownColumn col)
    | None =>
        match key_values (Py.split updates) with
        | [] => Return NoUpdates
        | _ :: _ =>
            match find_row c identifier data_rows 2 with
            | Go (Some r) =>
                Go {| plan_headers := headers;
                      plan_update_dict :=
                        assign_all (key_values (Py.split updates)) [];
                      plan_updates :=
                        map (write_of headers r)
                          (assign_all (key_values (Py.split updates)) []) |}
            | Go None => Return (RecordNotFound headers identifier)
            | Return text => Return text
            | Raise e => Raise e
            end
        end
    end.
Proof.
  intros Hc.
  pose proof (parse_updates_spec headers (Py.split updates) []) as Hp.
  destruct (first_unknown headers (map fst (key_values (Py.split updates))))
    as [col|] eqn:Hu.
  - unfold plan_update. rewrite Hc, Hp. reflexivity.
  - destruct (key_values (Py.split updates)) as [|kv pairs] eqn:Hkv.
    + unfold plan_update. rewrite Hc, Hp. reflexivity.
    + apply (plan_update_scan headers data_rows identifier updates c _ Hc Hp).
      apply assign_all_nonempty. right. discriminate.
Qed.

(** The checks of [update_sheet_record] answer in a fixed order: an
    empty sheet; a header row with neither ["id"] nor ["name"]; the first
    parsed column that is not a header; an update expression without any
    [column=value] pair; no row matching the identifier.  So an unknown
    column is reported before the record is looked for, and only a plan
    that passes all five holds writes. *)
Theorem plan_update_decision (headers : row) (data_rows : grid)
    (identifier updates : string) :
  plan_update [] identifier updates = Return EmptySheet
  /\ match identifier_column headers with
     | Return t =>
         t = NoIdentifierColumn
         /\ ~ In "id" headers /\ ~ In "name" headers
         /\ plan_update (headers :: data_rows) identifier updates
            = Return NoIdentifierColumn
     | Raise _ => False
     | Go c =>
         (In "id" headers \/ In "name" headers)
         /\ nth_error headers c = Some (identifier_type headers)
         /\ plan_update (headers :: data_rows) identifier updates
            = match first_unknown headers
                      (map fst (key_values (Py.split updates))) with
              | Some col => Return (UnknownColumn col)
              | None =>
                  match key_values (Py.split updates) with
                  | [] => Return NoUpdates
                  | _ :: _ =>
                      match find_row c identifier data_rows 2 with
                      | Go (Some r) =>
                          Go {| plan_headers := headers;
                                plan_update_dict :=
                                  assign_all (key_values (Py.split updates)) [];
                                plan_updates :=
                                  map (write_of headers r)
                                    (assign_all
                                       (key_values (Py.split updates)) []) |}
                      | Go None => Return (RecordNotFound headers identifier)
                      | Return text => Return text
                      | Raise e => Raise e
                      end
                  end
              end
     end.
Proof.
  split; [reflexivity|].
  pose proof (identifier_column_cases headers) as Hcases.
  destruct (identifier_column headers) as [c|t|e] eqn:Hc.
  - destruct Hcases as [Hin Hn]. repeat split; auto.
    apply plan_update_cases. exact Hc.
  - destruct Hcases as (-> & Hid & Hname). repeat split; auto.
    unfold plan_update. rewrite Hc. reflexivity.
  - exact Hcases.
Qed.



(** ** Where a plan writes *)

Lemma column_number_bounds (headers : row) (k : string) :
  In k headers -> 1 <= column_number headers k <= length headers.
Proof.
  intros H.
  destruct (headers_index_known headers k H) as (i & _ & Hn & _ & ->).
  assert (i < length headers) by (apply nth_error_Some; congruence). lia.
Qed.

Lemma column_number_injective (headers : row) (k k' : string) :
  In k headers -> In k' headers ->
  column_number headers k = column_number headers k' -> k = k'.
Proof.
  intros H H' E.
  destruct (headers_index_known headers k H) as (i & _ & Hn & _ & Hi).
  destruct (headers_index_known headers k' H') as (i' & _ & Hn' & _ & Hi').
  assert (i = i') by lia. subst i'. congruence.
Qed.

(** A plan holds at least one write; all its writes go to one row, which
    is a data row of the sheet (never the header row, never below the
    last row); every column written is a column of the header row; and
    no cell is written twice. *)
Theorem plan_writes_in_sheet (g : grid) (identifier updates : string)
    (p : Plan) :
  plan_update g identifier updates = Go p ->
  plan_updates p <> []
  /\ (exists r, 2 <= r <= length g
                /\ Forall (fun u => fst (fst u) = r) (plan_updates p))
  /\ Forall (fun u => 1 <= snd (fst u) <= length (hd [] g)) (plan_updates p)
  /\ NoDup (map (fun u => snd (fst u)) (plan_updates p)).
Proof.
  intros Hplan.
  destruct (plan_update_go g identifier updates p Hplan)
    as (headers & data_rows & c & r & -> & _ & _ & Hd & Hne & Hf & ->).
  apply find_row_bounds in Hf.
  pose proof Hd as Hd0.
  apply parse_updates_keys in Hd as (Hd & _ & Hkeys).
  assert (Hnd : NoDup (Py.dict_keys (plan_update_dict p))).
  { rewrite Hd. apply assign_all_NoDup. constructor. }
  split; [|split; [|split]].
  - intros H. apply map_eq_nil in H. contradiction.
  - exists r. split; [simpl; lia|].
    apply Forall_map, Forall_forall. reflexivity.
  - apply Forall_map. unfold Py.dict_keys in Hkeys.
    rewrite Forall_map in Hkeys.
    eapply Forall_impl; [|exact Hkeys].
    intros kv Hin. simpl. apply column_number_bounds. exact Hin.
  - rewrite map_map. simpl.
    rewrite <- (map_map fst (column_number headers)).
    apply NoDup_map_NoDup_ForallPairs; [|exact Hnd].
    intros k k' Hk Hk'. rewrite Forall_forall in Hkeys.
    apply column_number_injective; auto.
Qed.

Lemma plan_writes_in_sheet_witness :
  plan_update people "2" "name=Bobby id=7 name=Rob"
  = Go {| plan_headers := ["id"; "name"];
          plan_update_dict := [("name", "Rob"); ("id", "7")];
          plan_updates := [(3, 2, "Rob"); (3, 1, "7")] |}
  /\ NoDup (map (fun u : CellWrite => snd (fst u)) [(3, 2, "Rob"); (3, 1, "7")]).
Proof.
  assert (H1 : plan_update people "2" "name=Bobby id=7 name=Rob"
               = Go {| plan_headers := ["id"; "name"];
                       plan_update_dict := [("name", "Rob"); ("id", "7")];
                       plan_updates := [(3, 2, "Rob"); (3, 1, "7")] |})
    by reflexivity.
  split; [exact H1|].
  exact (proj2 (proj2 (proj2 (plan_writes_in_sheet _ _ _ _ H1)))).
Defined.

(** ** A write that fails *)

Lemma apply_updates_app {W} (be : Backend W) (ws : Worksheet)
    (u1 u2 : list CellWrite) (w : W) :
  apply_updates be ws (u1 ++ u2)%list w
  = match apply_updates be ws u1 w with
    | (inr _, w1) => apply_updates be ws u2 w1
    | (inl e, w1) => (inl e, w1)
    end.
Proof.
  revert w. induction u1 as [|[[r c] v] u1 IH]; intros w.
  - reflexivity.
  - unfold apply_updates in *. cbn [app for_each]. unfold bind.
    destruct (update_cell be ws r c v w) as [[e|[]] w1]; [reflexivity|].
    apply IH.
Qed.

(** The write loop has no rollback.  When a cell write of the plan is
    refused after earlier ones were accepted, the tool returns the error
    text of that refusal in the world the refused call left: the earlier
    writes stay applied and the later ones are not attempted. *)
Theorem update_stops_at_failed_write {W} (be : Backend W)
    (sid title identifier updates : string) (w w' w1 w2 : W)
    (ws : Worksheet) (g : grid) (p : Plan)
    (accepted rest : list CellWrite) (r c : nat) (v : string) (e : Py.exn) :
  fetch be sid title w = (inr (ws, g), w') ->
  plan_update g identifier updates = Go p ->
  plan_updates p = (accepted ++ (r, c, v) :: rest)%list ->
  apply_updates be ws accepted w' = (inr tt, w1) ->
  update_cell be ws r c v w1 = (inl e, w2) ->
  update_sheet_record be sid title identifier updates w
  = (inr (error_text e), w2).
Proof.
  intros Hfetch Hplan Hsplit Hacc Hfail.
  rewrite (update_sheet_record_run be sid title identifier updates
             w w' ws g Hfetch), Hplan, Hsplit, apply_updates_app, Hacc.
  unfold apply_updates. cbn [for_each]. unfold bind at 1.
  rewrite Hfail. reflexivity.
Qed.

Lemma update_stops_at_failed_write_witness :
  fetch Budget.backend "S" "T" (Mem.one_sheet people, 1)
  = (inr (Mem.the_sheet, people), (Mem.one_sheet people, 1))
  /\ plan_updates
       {| plan_headers := ["id"; "name"];
          plan_update_dict := [("name", "Bobby"); ("id", "7")];
          plan_updates := [(3, 2, "Bobby"); (3, 1, "7")] |}
     = ([(3, 2, "Bobby")] ++ (3, 1, "7") :: [])%list
  /\ fst (update_sheet_record Budget.backend "S" "T" "2" "name=Bobby id=7"
            (Mem.one_sheet people, 1))
     = inr "Error: Quota exceeded"
  /\ Mem.grid_of
       (fst (snd (update_sheet_record Budget.backend "S" "T" "2"
                    "name=Bobby id=7" (Mem.one_sheet people, 1))))
     = Some [["id"; "name"]; ["1"; "Alice"]; ["2"; "Bobby"]].
Proof.
  assert (H1 : fetch Budget.backend "S" "T" (Mem.one_sheet people, 1)
               = (inr (Mem.the_sheet, people), (Mem.one_sheet people, 1)))
    by reflexivity.
  split; [exact H1|]. split; [reflexivity|].
  rewrite (update_stops_at_failed_write Budget.backend "S" "T" "2"
             "name=Bobby id=7" _ _
             (Mem.store (Mem.one_sheet people) "S" "T"
                [["id"; "name"]; ["1"; "Alice"]; ["2"; "Bobby"]]
                (Mem.UpdateCell "S" "T" 3 2 "Bobby"), 0)
             (Mem.store (Mem.one_sheet people) "S" "T"
                [["id"; "name"]; ["1"; "Alice"]; ["2"; "Bobby"]]
                (Mem.UpdateCell "S" "T" 3 2 "Bobby"), 0)
             _ _ _ [(3, 2, "Bobby")] [] 3 1 "7" Mem.quota_exceeded
             H1 eq_refl eq_refl eq_refl eq_refl).
  split; reflexivity.
Defined.

(** ** Letter case of the identifier *)

Lemma lower_char_idempotent (c : ascii) :
  Py.lower_char (Py.lower_char c) = Py.lower_char c.
Proof.
  destruct c as [[] [] [] [] [] [] [] []]; reflexivity.
Qed.

Lemma lower_idempotent (s : string) : Py.lower (Py.lower s) = Py.lower s.
Proof.
  induction s as [|c s IH]; simpl; [reflexivity|].
  rewrite lower_char_idempotent, IH. reflexivity.
Qed.

Lemma find_row_lower (c : nat) (id1 id2 : string) (rows : grid) (i : nat) :
  Py.lower id1 = Py.lower id2 ->
  find_row c id1 rows i = find_row c id2 rows i.
Proof.
  intros H. revert i. induction rows as [|r rows IH]; intros i; simpl.
  - reflexivity.
  - destruct (nth_error r c); [|reflexivity].
    rewrite H, IH. reflexivity.
Qed.

(** The identifier is compared without regard to letter case on both
    sides: two identifiers with the same lower-case form select the same
    row and give the same plan, and the lower-case form of an identifier
    is such an identifier. *)
Theorem identifier_case_ignored (g : grid) (id1 id2 updates : string)
    (p : Plan) :
  Py.lower id1 = Py.lower id2 ->
  plan_update g id1 updates = Go p ->
  plan_update g id2 updates = Go p
  /\ plan_update g (Py.lower id1) updates = Go p.
Proof.
  intros Hl Hplan.
  destruct (plan_update_go g id1 updates p Hplan)
    as (headers & data_rows & c & r & -> & Hh & Hc & Hd & Hne & Hf & Hw).
  assert (Hp : p = {| plan_headers := headers;
                      plan_update_dict := plan_update_dict p;
                      plan_updates := map (write_of headers r)
                                        (plan_update_dict p) |}).
  { destruct p as [h d u]. simpl in *. congruence. }
  split.
  - rewrite (plan_update_scan headers data_rows id2 updates c _ Hc Hd Hne).
    rewrite <- (find_row_lower c id1 id2 data_rows 2 Hl), Hf.
    congruence.
  - rewrite (plan_update_scan headers data_rows (Py.lower id1) updates c _
               Hc Hd Hne).
    rewrite <- (find_row_lower c id1 (Py.lower id1) data_rows 2), Hf.
    + congruence.
    + symmetry. apply lower_idempotent.
Qed.

Lemma identifier_case_ignored_witness :
  Py.lower "BoB" = Py.lower "bOb"
  /\ plan_update [["name"; "age"]; ["Bob"; "7"]] "bOb" "age=8"
     = Go {| plan_headers := ["name"; "age"];
             plan_update_dict := [("age", "8")];
             plan_updates := [(2, 2, "8")] |}.
Proof.
  assert (H1 : Py.lower "BoB" = Py.lower "bOb") by reflexivity.
  split; [exact H1|].
  exact (proj1 (identifier_case_ignored
                  [["name"; "age"]; ["Bob"; "7"]] "BoB" "bOb" "age=8" _
                  H1 eq_refl)).
Defined.

(** ** Splitting and joining *)

Lemma fields_no_sep (sep : ascii) (x s : string) :
  Py.contains_char sep x = false ->
  Py.fields sep (x ++ s)
  = (x ++ fst (Py.fields sep s), snd (Py.fields sep s)).
Proof.
  induction x as [|c x IH]; simpl; intros H.
  - destruct (Py.fields sep s); reflexivity.
  - apply orb_false_iff in H as [Hc Hx].
    rewrite (IH Hx), Hc. reflexivity.
Qed.

Lemma split_on_no_sep (sep : ascii) (x : string) :
  Py.contains_char sep x = false -> Py.split_on sep x = [x].
Proof.
  intros H. unfold Py.split_on.
  rewrite <- (append_empty_r x) at 1.
  rewrite (fields_no_sep sep x EmptyString H). simpl.
  rewrite append_empty_r. reflexivity.
Qed.

Lemma split_on_cons (sep : ascii) (x s : string) :
  Py.contains_char sep x = false ->
  Py.split_on sep (x ++ String sep s) = x :: Py.split_on sep s.
Proof.
  intros H. unfold Py.split_on.
  rewrite (fields_no_sep sep x _ H). simpl.
  rewrite Ascii.eqb_refl. destruct (Py.fields sep s) as [h t]. simpl.
  rewrite append_empty_r. reflexivity.
Qed.

(** Joining with a one-character separator and splitting at it gives the
    parts back, when there is at least one part and none holds the
    separator. *)
Lemma split_on_join (sep : ascii) (l : list string) :
  l <> [] ->
  Forall (fun x => Py.contains_char sep x = false) l ->
  Py.split_on sep (Py.join (String sep EmptyString) l) = l.
Proof.
  intros Hne H. induction H as [|x l Hx Hl IH]; [congruence|].
  destruct l as [|y l].
  - simpl. apply split_on_no_sep, Hx.
  - unfold Py.join in *.
    change (String.concat (String sep EmptyString) (x :: y :: l))
      with (x ++ String sep (String.concat (String sep EmptyString) (y :: l))).
    rewrite (split_on_cons sep x _ Hx), IH; [reflexivity | discriminate].
Qed.

Lemma contains_char_join (c : ascii) (sep : string) (l : list string) :
  Py.contains_char c sep = false ->
  Forall (fun x => Py.contains_char c x = false) l ->
  Py.contains_char c (Py.join sep l) = false.
Proof.
  intros Hsep H. induction H as [|x l Hx Hl IH]; [reflexivity|].
  destruct l as [|y l].
  - exact Hx.
  - unfold Py.join in *.
    change (String.concat sep (x :: y :: l))
      with (x ++ sep ++ String.concat sep (y :: l)).
    rewrite !contains_char_app, Hx, Hsep, IH. reflexivity.
Qed.

Lemma contains_char_repeat (c : ascii) (s : string) (n : nat) :
  Py.contains_char c s = false ->
  Py.contains_char c (Py.repeat_str s n) = false.
Proof.
  intros H. induction n as [|n IH]; simpl; [reflexivity|].
  rewrite contains_char_app, H, IH. reflexivity.
Qed.

Lemma join_app (sep : string) (l l' : list string) :
  l <> [] -> l' <> [] ->
  Py.join sep (l ++ l')%list = Py.join sep l ++ sep ++ Py.join sep l'.
Proof.
  intros Hl Hl'. induction l as [|x l IH]; [congruence|].
  destruct l as [|y l].
  - destruct l' as [|z l']; [congruence|]. reflexivity.
  - unfold Py.join in *. cbn [app] in *.
    change (String.concat sep (x :: y :: (l ++ l')%list))
      with (x ++ sep ++ String.concat sep (y :: (l ++ l')%list)).
    change (String.concat sep (x :: y :: l))
      with (x ++ sep ++ String.concat sep (y :: l)).
    rewrite IH by discriminate.
    rewrite !append_assoc. reflexivity.
Qed.

(** ** The comma-separated payload *)

(** A comma-separated payload reads back as the rows it was written
    from: when there is at least one row, every row has at least one
    cell, no cell holds a comma or a line feed, and the text neither
    begins nor ends with whitespace, [csv_lines] of the text is the list
    of these rows, cell for cell; so the tool reports as many records as
    there are rows. *)
Theorem csv_round_trip (rows : grid) :
  rows <> [] ->
  Forall (fun r => r <> []) rows ->
  Forall (Forall (fun cell => Py.contains_char "," cell = false
                              /\ Py.contains_char LF cell = false)) rows ->
  Py.strip (csv_text rows) = csv_text rows ->
  csv_lines (csv_text rows) = py_rows rows
  /\ length (csv_lines (csv_text rows)) = length rows.
Proof.
  intros Hne Hrows Hcells Hstrip.
  assert (E : csv_lines (csv_text rows) = py_rows rows).
  { unfold csv_lines, py_rows. rewrite Hstrip. unfold csv_text, nl.
    rewrite split_on_join.
    - rewrite map_map. apply map_ext_in. intros r Hr.
      rewrite Forall_forall in Hrows, Hcells.
      rewrite split_on_join; [reflexivity | apply Hrows, Hr |].
      eapply Forall_impl; [|apply Hcells, Hr]. intros cell [H _]. exact H.
    - intros H. apply map_eq_nil in H. contradiction.
    - apply Forall_map. eapply Forall_impl; [|exact Hcells].
      intros r Hr. apply contains_char_join; [reflexivity|].
      eapply Forall_impl; [|exact Hr]. intros cell [_ H]. exact H. }
  split; [exact E|]. rewrite E. unfold py_rows. apply length_map.
Qed.

Lemma csv_round_trip_witness :
  [["a"; "b c"]; [""; "d"]] <> []
  /\ Forall (fun r : row => r <> []) [["a"; "b c"]; [""; "d"]]
  /\ Py.strip (csv_text [["a"; "b c"]; [""; "d"]])
     = csv_text [["a"; "b c"]; [""; "d"]]
  /\ csv_lines ("a,b c" ++ nl ++ ",d")
     = [Py.PyList [Py.PyStr "a"; Py.PyStr "b c"];
        Py.PyList [Py.PyStr ""; Py.PyStr "d"]].
Proof.
  assert (H1 : [["a"; "b c"]; [""; "d"]] <> []) by discriminate.
  assert (H2 : Forall (fun r : row => r <> []) [["a"; "b c"]; [""; "d"]]).
  { repeat constructor; discriminate. }
  assert (H3 : Forall (Forall (fun cell => Py.contains_char "," cell = false
                                 /\ Py.contains_char LF cell = false))
                 [["a"; "b c"]; [""; "d"]]).
  { repeat constructor. }
  assert (H4 : Py.strip (csv_text [["a"; "b c"]; [""; "d"]])
               = csv_text [["a"; "b c"]; [""; "d"]]) by reflexivity.
  repeat (split; [assumption|]).
  exact (proj1 (csv_round_trip _ H1 H2 H3 H4)).
Defined.

(** ** The rendered table *)

(** The table of a grid with at least one row, none of whose cells holds
    a line feed, has one line per row plus the separator: the first line
    is the header row joined by [" | "], the second is made of dashes and
    is as long as the first, and each further line is a data row joined
    the same way.  A grid with its header row only gives the two first
    lines and nothing else. *)
Theorem table_lines (title : option string) (rows_0 : row) (rows_1 : grid) :
  Forall (Forall (fun cell => Py.contains_char LF cell = false))
    (rows_0 :: rows_1) ->
  exists text,
    format_sheet_data
      {| sd_error := None; sd_title := title;
         sd_data := Some (rows_0 :: rows_1) |} = inr text
    /\ Py.split_on LF text
       = Py.join " | " rows_0
         :: Py.repeat_str "-" (String.length (Py.join " | " rows_0))
         :: map (Py.join " | ") rows_1
    /\ length (Py.split_on LF text) = length (rows_0 :: rows_1) + 1
    /\ String.length
         (Py.repeat_str "-" (String.length (Py.join " | " rows_0)))
       = String.length (Py.join " | " rows_0).
Proof.
  intros H. eexists. split; [reflexivity|].
  assert (E : Py.split_on LF
                (Py.join nl
                   ([Py.join " | " rows_0;
                     Py.repeat_str "-" (String.length (Py.join " | " rows_0))]
                    ++ map (fun r => Py.join " | " r) rows_1)%list)
              = Py.join " | " rows_0
                :: Py.repeat_str "-" (String.length (Py.join " | " rows_0))
                :: map (Py.join " | ") rows_1).
  { unfold nl. rewrite split_on_join; [reflexivity | discriminate |].
    inversion H as [|? ? H0 H1]; subst.
    constructor; [apply contains_char_join; [reflexivity | exact H0]|].
    constructor; [apply contains_char_repeat; reflexivity|].
    apply Forall_map. eapply Forall_impl; [|exact H1].
    intros r Hr. apply contains_char_join; [reflexivity | exact Hr]. }
  split; [exact E|]. split.
  - rewrite E. simpl. rewrite length_map. unfold row. lia.
  - generalize (String.length (Py.join " | " rows_0)).
    intros n. induction n as [|n IH]; simpl; congruence.
Qed.

Lemma table_lines_witness :
  Forall (Forall (fun cell => Py.contains_char LF cell = false))
    [["id"; "name"]]
  /\ exists text,
       format_sheet_data
         {| sd_error := None; sd_title := Some "T";
            sd_data := Some [["id"; "name"]] |} = inr text
       /\ Py.split_on LF text = ["id | name"; "---------"].
Proof.
  assert (H1 : Forall (Forall (fun cell => Py.contains_char LF cell = false))
                 [["id"; "name"]]) by (repeat constructor).
  split; [exact H1|].
  destruct (table_lines (Some "T") ["id"; "name"] [] H1)
    as (text & Hf & Hs & _).
  exists text. split; [exact Hf | exact Hs].
Defined.

(* ================================================================== *)
(** * The tools on the in-memory backend *)
(* ================================================================== *)

Section MemRuns.
Import Mem.

Lemma set_nth_length {A} (d : A) (n : nat) (v : A) (l : list A) :
  n < length l -> length (set_nth d n v l) = length l.
Proof.
  revert l. induction n as [|n IH]; intros [|x l] H; simpl in *; try lia.
  rewrite IH; lia.
Qed.

Lemma set_nth_eq {A} (d : A) (n : nat) (v : A) (l : list A) :
  nth_error (set_nth d n v l) n = Some v.
Proof.
  revert l. induction n as [|n IH]; intros [|x l]; simpl; auto.
Qed.

Lemma set_nth_neq {A} (d : A) (n m : nat) (v : A) (l : list A) :
  n < length l -> m <> n ->
  nth_error (set_nth d n v l) m = nth_error l m.
Proof.
  revert l m. induction n as [|n IH]; intros [|x l] m H Hm; simpl in *;
    try lia.
  - destruct m; [lia | reflexivity].
  - destruct m; [reflexivity|]. simpl. apply IH; lia.
Qed.

Lemma set_nth_twice {A} (d : A) (n : nat) (v v' : A) (l : list A) :
  set_nth d n v' (set_nth d n v l) = set_nth d n v' l.
Proof.
  revert l. induction n as [|n IH]; intros [|x l]; simpl; auto;
    rewrite IH; reflexivity.
Qed.

Lemma set_nth_same {A} (d : A) (n : nat) (v : A) (l : list A) :
  nth_error l n = Some v -> set_nth d n v l = l.
Proof.
  revert l. induction n as [|n IH]; intros [|x l]; simpl; try discriminate.
  - intros [= ->]. reflexivity.
  - intros H. rewrite (IH l H). reflexivity.
Qed.

Lemma nth_set_nth {A} (d : A) (n : nat) (v : A) (l : list A) :
  nth n (set_nth d n v l) d = v.
Proof.
  apply nth_error_nth. apply set_nth_eq.
Qed.

(** Cell writes into one row amount to rewriting that row. *)
Lemma write_all_row (headers : row) (r : nat) (d : Py.dict string)
    (cells : row) (g : grid) :
  write_all (map (write_of headers r) d) (set_nth [] (r - 1) cells g)
  = set_nth [] (r - 1) (fold_left (assign_cell headers) d cells) g.
Proof.
  revert cells. induction d as [|kv d IH]; intros cells; simpl.
  - reflexivity.
  - unfold write_all in *. simpl. unfold set_cell at 2.
    rewrite nth_set_nth, set_nth_twice. apply IH.
Qed.

Lemma write_all_updated_grid (headers : row) (r : nat) (d : Py.dict string)
    (g : grid) :
  r - 1 < length g ->
  write_all (map (write_of headers r) d) g = updated_grid headers r d g.
Proof.
  intros H. unfold updated_grid. rewrite <- write_all_row.
  rewrite set_nth_same; [reflexivity|].
  apply nth_error_nth'. exact H.
Qed.

Lemma mem_init (w : world) :
  fault w = None -> __init__ backend w = (inr tt, w).
Proof.
  intros H. unfold __init__, bind, try_catch, ret. simpl.
  unfold mem_openall, request. rewrite H. reflexivity.
Qed.

Lemma lookup_store_sheet (w : world) (id title : string) (g : grid)
    (ev : event) (s : sheet) :
  lookup w id title = Some s ->
  lookup (store w id title g ev) id title
  = Some {| sh_title := sh_title s; sh_row_count := sh_row_count s;
            sh_col_count := sh_col_count s; sh_values := g |}.
Proof.
  unfold lookup, store. simpl.
  destruct (find_book id (books w)) as [b|] eqn:Hb; [|discriminate].
  intros Hs. rewrite (find_book_put id title g _ b Hb). simpl.
  apply (find_sheet_put title g _ s Hs).
Qed.

Lemma mem_fetch (w : world) (sid title : string) (s : sheet) :
  fault w = None ->
  lookup w sid title = Some s ->
  fetch backend sid title w = (inr (handle sid s, sh_values s), w).
Proof.
  intros Hfault Hl.
  pose proof Hl as Hl0. unfold lookup in Hl0.
  destruct (find_book sid (books w)) as [b|] eqn:Hb; [|discriminate].
  pose proof (find_book_id _ _ _ Hb) as Hid.
  pose proof (find_sheet_title _ _ _ Hl0) as Ht.
  unfold fetch, bind, ret. rewrite (mem_init w Hfault).
  cbn [open_by_key worksheet get_all_values backend].
  unfold mem_open_by_key, mem_worksheet, mem_get_all_values,
    request, with_sheet, ret.
  repeat first
    [ rewrite Hfault | rewrite Hb | rewrite Hid | rewrite Hl | rewrite Ht
    | progress cbv beta iota zeta
    | progress cbn [handle ws_spreadsheet ws_title] ].
  reflexivity.
Qed.

Lemma mem_update_cell_run (w : world) (sid title : string) (s : sheet)
    (r c : nat) (v : string) :
  fault w = None ->
  lookup w sid title = Some s ->
  1 <= r -> 1 <= c ->
  update_cell backend (handle sid s) r c v w
  = (inr tt,
     store w sid title (set_cell r c v (sh_values s))
       (UpdateCell sid title r c v)).
Proof.
  intros Hfault Hl Hr Hc.
  pose proof Hl as Hl0. unfold lookup in Hl0.
  destruct (find_book sid (books w)) as [b|] eqn:Hb; [|discriminate].
  pose proof (find_sheet_title _ _ _ Hl0) as Ht.
  cbn [update_cell backend].
  unfold mem_update_cell, request, with_sheet.
  cbn [handle ws_spreadsheet ws_title].
  rewrite Hfault, Ht, Hl.
  destruct r as [|r]; [lia|]. destruct c as [|c]; [lia|]. reflexivity.
Qed.

(** The write loop on the in-memory backend: every write is accepted,
    recorded, and made in order. *)
Lemma mem_apply_updates (us : list CellWrite) (w : world)
    (sid title : string) (s : sheet) :
  fault w = None ->
  lookup w sid title = Some s ->
  Forall (fun u => 1 <= fst (fst u) /\ 1 <= snd (fst u)) us ->
  exists w',
    apply_updates backend (handle sid s) us w = (inr tt, w')
    /\ fault w' = None
    /\ lookup w' sid title
       = Some {| sh_title := sh_title s; sh_row_count := sh_row_count s;
                 sh_col_count := sh_col_count s;
                 sh_values := write_all us (sh_values s) |}
    /\ log w' = (log w ++ map (cell_event sid title) us)%list.
Proof.
  intros Hfault Hl Hus. revert w s Hfault Hl.
  induction Hus as [|[[r c] v] us [Hr Hc] _ IH]; intros w s Hfault Hl.
  - exists w. unfold apply_updates, write_all. simpl.
    rewrite app_nil_r. destruct s. auto.
  - simpl in Hr, Hc.
    set (w1 := store w sid title (set_cell r c v (sh_values s))
                 (UpdateCell sid title r c v)).
    set (s1 := {| sh_title := sh_title s; sh_row_count := sh_row_count s;
                  sh_col_count := sh_col_count s;
                  sh_values := set_cell r c v (sh_values s) |}).
    assert (Hl1 : lookup w1 sid title = Some s1)
      by (apply lookup_store_sheet; exact Hl).
    destruct (IH w1 s1 Hfault Hl1) as (w' & Hrun & Hf' & Hl' & Hlog).
    exists w'. split; [|split; [exact Hf'|split]].
    + unfold apply_updates in *. cbn [for_each]. unfold bind.
      rewrite (mem_update_cell_run w sid title s r c v Hfault Hl Hr Hc).
      exact Hrun.
    + exact Hl'.
    + rewrite Hlog. unfold w1. simpl. rewrite <- app_assoc. reflexivity.
Qed.

End MemRuns.

(** ** [update_sheet_record] on the in-memory backend *)

Section MemUpdate.
Import Mem.

(** The assignments of a dictionary with distinct columns, all inside
    the row: each assigned cell holds its value, every other cell is as
    it was, and the row keeps its length. *)
Lemma fold_assign_cells (headers : row) (d : Py.dict string) (cells : row) :
  NoDup (map (fun kv => column_number headers (fst kv)) d) ->
  Forall (fun kv => 1 <= column_number headers (fst kv) <= length cells) d ->
  length (fold_left (assign_cell headers) d cells) = length cells
  /\ (forall kv, In kv d ->
        nth_error (fold_left (assign_cell headers) d cells)
          (column_number headers (fst kv) - 1) = Some (snd kv))
  /\ (forall j, (forall kv, In kv d -> column_number headers (fst kv) - 1 <> j) ->
        nth_error (fold_left (assign_cell headers) d cells) j
        = nth_error cells j).
Proof.
  revert cells. induction d as [|kv d IH]; intros cells Hnd Hb; simpl.
  - repeat split; tauto.
  - inversion Hnd as [|? ? Hnotin Hnd']; subst.
    inversion Hb as [|? ? Hkv Hb']; subst.
    assert (Hlen : length (assign_cell headers cells kv) = length cells).
    { unfold assign_cell. apply set_nth_length. lia. }
    assert (Hb1 : Forall (fun kv0 => 1 <= column_number headers (fst kv0)
                                     <= length (assign_cell headers cells kv)) d).
    { rewrite Hlen. exact Hb'. }
    destruct (IH (assign_cell headers cells kv) Hnd' Hb1) as (IHl & IHin & IHout).
    split; [congruence|]. split.
    + intros kv0 [<-|Hin]; [|apply IHin, Hin].
      rewrite IHout.
      * unfold assign_cell. apply set_nth_eq.
      * intros kv1 Hin1 E. apply Hnotin.
        rewrite Forall_forall in Hb'. specialize (Hb' kv1 Hin1).
        replace (column_number headers (fst kv))
          with (column_number headers (fst kv1)) by lia.
        apply (in_map (fun kv => column_number headers (fst kv))), Hin1.
    + intros j Hj. rewrite IHout.
      * unfold assign_cell. apply set_nth_neq; [lia|].
        intros ->. apply (Hj kv); auto.
      * intros kv1 Hin1. apply Hj. auto.
Qed.

(** Assignments that change no cell leave the row as it is. *)
Lemma fold_assign_fixed (headers : row) (d : Py.dict string) (cells : row) :
  (forall kv, In kv d ->
     nth_error cells (column_number headers (fst kv) - 1) = Some (snd kv)) ->
  fold_left (assign_cell headers) d cells = cells.
Proof.
  induction d as [|kv d IH]; intros H; simpl; [reflexivity|].
  assert (E : assign_cell headers cells kv = cells).
  { unfold assign_cell. apply set_nth_same. apply H. left. reflexivity. }
  rewrite E. apply IH. intros kv0 Hin. apply H. right. exact Hin.
Qed.

(** What a plan that reaches the write loop knows, in terms of the
    grid. *)
Lemma plan_facts (headers : row) (data_rows : grid)
    (identifier updates : string) (p : Plan) :
  plan_update (headers :: data_rows) identifier updates = Go p ->
  exists c r,
    identifier_column headers = Go c
    /\ parse_updates headers (Py.split updates) [] = Go (plan_update_dict p)
    /\ plan_update_dict p <> []
    /\ find_row c identifier data_rows 2 = Go (Some r)
    /\ 2 <= r <= length data_rows + 1
    /\ p = {| plan_headers := headers;
              plan_update_dict := plan_update_dict p;
              plan_updates := map (write_of headers r) (plan_update_dict p) |}
    /\ Forall (fun kv => In (fst kv) headers) (plan_update_dict p)
    /\ NoDup (map (fun kv => column_number headers (fst kv))
                (plan_update_dict p)).
Proof.
  intros Hplan.
  destruct (plan_update_go _ identifier updates p Hplan)
    as (h & rows & c & r & [= <- <-] & Hh & Hc & Hd & Hne & Hf & Hw).
  exists c, r.
  pose proof (find_row_bounds _ _ _ _ _ Hf) as Hr.
  pose proof (parse_updates_keys _ _ _ Hd) as (Hd' & _ & Hkeys).
  assert (Hk : Forall (fun kv => In (fst kv) headers) (plan_update_dict p)).
  { unfold Py.dict_keys in Hkeys. rewrite Forall_map in Hkeys. exact Hkeys. }
  repeat split; auto; try lia.
  - destruct p as [h d u]. simpl in *. congruence.
  - rewrite <- (map_map fst (column_number headers)).
    apply NoDup_map_NoDup_ForallPairs.
    + intros k k' Hin Hin'. rewrite Forall_forall in Hkeys.
      apply column_number_injective; auto.
    + rewrite Hd'. apply assign_all_NoDup. constructor.
Qed.

(** A successful update on the in-memory backend, in one step. *)
Lemma mem_update_result (w : world) (sid title identifier updates : string)
    (s : sheet) (headers : row) (data_rows : grid) (p : Plan) :
  fault w = None ->
  lookup w sid title = Some s ->
  sh_values s = headers :: data_rows ->
  plan_update (headers :: data_rows) identifier updates = Go p ->
  exists w' r,
    update_sheet_record backend sid title identifier updates w
    = (inr (success_message p identifier), w')
    /\ fault w' = None
    /\ lookup w' sid title
       = Some {| sh_title := sh_title s; sh_row_count := sh_row_count s;
                 sh_col_count := sh_col_count s;
                 sh_values := updated_grid headers r (plan_update_dict p)
                                (headers :: data_rows) |}
    /\ log w' = (log w ++ map (cell_event sid title) (plan_updates p))%list
    /\ plan_updates p = map (write_of headers r) (plan_update_dict p)
    /\ 2 <= r <= length data_rows + 1.
Proof.
  intros Hfault Hl Hg Hplan.
  destruct (plan_facts headers data_rows identifier updates p Hplan)
    as (c & r & _ & _ & _ & _ & Hr & Hp & Hk & _).
  assert (Hus : Forall (fun u : CellWrite => 1 <= fst (fst u) /\ 1 <= snd (fst u))
                  (plan_updates p)).
  { rewrite Hp. cbn [plan_updates]. apply Forall_map.
    eapply Forall_impl; [|exact Hk]. intros kv Hin. simpl.
    pose proof (column_number_bounds headers (fst kv) Hin). lia. }
  destruct (mem_apply_updates (plan_updates p) w sid title s Hfault Hl Hus)
    as (w' & Hrun & Hf' & Hl' & Hlog).
  exists w', r.
  rewrite (update_sheet_record_run backend sid title identifier updates
             w w (handle sid s) (sh_values s) (mem_fetch w sid title s Hfault Hl)).
  rewrite Hg, Hplan, Hrun.
  split; [reflexivity|]. split; [exact Hf'|]. split; [|split; [exact Hlog|]].
  - rewrite Hl'. do 2 f_equal. rewrite Hg.
    rewrite Hp at 1. cbn [plan_updates].
    apply write_all_updated_grid. simpl. lia.
  - split; [|exact Hr]. rewrite Hp at 1. reflexivity.
Qed.

End MemUpdate.

Section MemUpdateTheorems.
Import Mem.

Lemma Forall_set_nth {A} (P : A -> Prop) (d : A) (n : nat) (v : A)
    (l : list A) :
  Forall P l -> P v -> n < length l -> Forall P (set_nth d n v l).
Proof.
  intros Hl Hv. revert n. induction Hl as [|x l Hx Hl IH]; intros n Hn;
    simpl in Hn; [lia|].
  destruct n as [|n]; simpl; constructor; auto. apply IH. lia.
Qed.

Lemma find_row_set_nth (c : nat) (identifier : string) (rows : grid)
    (n : nat) (cells : row) (i : nat) :
  n < length rows ->
  nth_error cells c = nth_error (nth n rows []) c ->
  find_row c identifier (set_nth [] n cells rows) i
  = find_row c identifier rows i.
Proof.
  revert n i. induction rows as [|x rows IH]; intros n i Hn Hc;
    simpl in Hn; [lia|].
  destruct n as [|n]; simpl in *.
  - rewrite Hc. reflexivity.
  - destruct (nth_error x c); [|reflexivity].
    rewrite IH by (auto; lia). reflexivity.
Qed.

(** The target row and its cells, for a rectangular grid. *)
Lemma target_row (headers : row) (data_rows : grid) (r : nat) :
  rectangular headers data_rows ->
  2 <= r <= length data_rows + 1 ->
  nth_error (headers :: data_rows) (r - 1)
  = Some (nth (r - 1) (headers :: data_rows) [])
  /\ length (nth (r - 1) (headers :: data_rows) []) = length headers
  /\ nth (r - 1) (headers :: data_rows) [] = nth (r - 2) data_rows [].
Proof.
  intros Hrect Hr.
  assert (E : r - 1 = S (r - 2)) by lia.
  split; [apply nth_error_nth'; simpl; lia|].
  rewrite E. simpl. split; [|reflexivity].
  unfold rectangular in Hrect. rewrite Forall_forall in Hrect.
  apply Hrect. apply nth_In. lia.
Qed.

(** Reading back an update.  On the in-memory backend, a planned update
    of a rectangular grid succeeds, and afterwards the sheet has the same
    number of rows, every row but the target row is as it was (the header
    row among them), the target row holds the new value in each updated
    column and its former value in every other column, and the grid is
    still rectangular. *)
Theorem update_read_back (w : world) (sid title identifier updates : string)
    (s : sheet) (headers : row) (data_rows : grid) (p : Plan) :
  fault w = None ->
  lookup w sid title = Some s ->
  sh_values s = headers :: data_rows ->
  rectangular headers data_rows ->
  plan_update (headers :: data_rows) identifier updates = Go p ->
  exists w' g' r,
    update_sheet_record backend sid title identifier updates w
    = (inr (success_message p identifier), w')
    /\ option_map sh_values (lookup w' sid title) = Some g'
    /\ 2 <= r <= length data_rows + 1
    /\ Forall (fun u => fst (fst u) = r) (plan_updates p)
    /\ length g' = length (headers :: data_rows)
    /\ (forall i, i + 1 <> r ->
          nth_error g' i = nth_error (headers :: data_rows) i)
    /\ (forall col v, In (col, v) (plan_update_dict p) ->
          cell_at g' r (column_number headers col) = Some v)
    /\ (forall c, 1 <= c ->
          (forall col v, In (col, v) (plan_update_dict p) ->
                         column_number headers col <> c) ->
          cell_at g' r c = cell_at (headers :: data_rows) r c)
    /\ hd [] g' = headers
    /\ rectangular headers (tl g').
Proof.
  intros Hfault Hl Hg Hrect Hplan.
  destruct (mem_update_result w sid title identifier updates s headers
              data_rows p Hfault Hl Hg Hplan)
    as (w' & r & Hrun & _ & Hl' & _ & Hus & Hr).
  destruct (plan_facts headers data_rows identifier updates p Hplan)
    as (c0 & r0 & _ & _ & _ & _ & _ & _ & Hk & Hnd).
  destruct (target_row headers data_rows r Hrect Hr) as (Hrow & Hlen & Hnth).
  set (g := headers :: data_rows) in *.
  set (cells := nth (r - 1) g []) in *.
  assert (Hb : Forall (fun kv => 1 <= column_number headers (fst kv)
                                 <= length cells) (plan_update_dict p)).
  { eapply Forall_impl; [|exact Hk]. intros kv Hin. rewrite Hlen.
    apply column_number_bounds, Hin. }
  destruct (fold_assign_cells headers (plan_update_dict p) cells Hnd Hb)
    as (Hl1 & Hin1 & Hout1).
  set (cells' := fold_left (assign_cell headers) (plan_update_dict p) cells)
    in *.
  assert (Hrg : r - 1 < length g) by (unfold g; simpl; lia).
  exists w', (updated_grid headers r (plan_update_dict p) g), r.
  split; [exact Hrun|]. split; [rewrite Hl'; reflexivity|].
  split; [exact Hr|].
  split; [rewrite Hus; apply Forall_map, Forall_forall; reflexivity|].
  unfold updated_grid. fold cells. fold cells'.
  split; [apply set_nth_length, Hrg|].
  split; [intros i Hi; apply set_nth_neq; [exact Hrg | lia]|].
  split; [|split].
  - intros col v Hin. unfold cell_at. rewrite set_nth_eq.
    apply (Hin1 (col, v) Hin).
  - intros c Hc Hno. unfold cell_at. rewrite set_nth_eq, Hrow.
    apply Hout1. intros [col v] Hin E. simpl in E.
    rewrite Forall_forall in Hb. specialize (Hb (col, v) Hin). simpl in Hb.
    apply (Hno col v Hin). lia.
  - assert (E : r - 1 = S (r - 2)) by lia.
    rewrite E. unfold g. simpl. split; [reflexivity|].
    apply Forall_set_nth; [exact Hrect | | unfold grid, row in *; lia].
    transitivity (length cells); [exact Hl1 | exact Hlen].
Qed.

Lemma update_read_back_witness :
  fault (one_sheet people) = None
  /\ lookup (one_sheet people) "S" "T"
     = Some {| sh_title := "T"; sh_row_count := 1000; sh_col_count := 26;
               sh_values := people |}
  /\ rectangular ["id"; "name"] (tl people)
  /\ plan_update (["id"; "name"] :: tl people) "2" "name=Bobby"
     = Go {| plan_headers := ["id"; "name"];
             plan_update_dict := [("name", "Bobby")];
             plan_updates := [(3, 2, "Bobby")] |}
  /\ exists w' g',
       update_sheet_record backend "S" "T" "2" "name=Bobby" (one_sheet people)
       = (inr "Successfully updated record with id '2' with: name=Bobby", w')
       /\ option_map sh_values (lookup w' "S" "T") = Some g'
       /\ cell_at g' 3 2 = Some "Bobby".
Proof.
  assert (H1 : fault (one_sheet people) = None) by reflexivity.
  assert (H2 : lookup (one_sheet people) "S" "T"
               = Some {| sh_title := "T"; sh_row_count := 1000;
                         sh_col_count := 26; sh_values := people |})
    by reflexivity.
  assert (H3 : rectangular ["id"; "name"] (tl people))
    by (repeat constructor).
  assert (H4 : plan_update (["id"; "name"] :: tl people) "2" "name=Bobby"
               = Go {| plan_headers := ["id"; "name"];
                       plan_update_dict := [("name", "Bobby")];
                       plan_updates := [(3, 2, "Bobby")] |}) by reflexivity.
  repeat (split; [assumption|]).
  destruct (update_read_back _ "S" "T" "2" "name=Bobby" _ _ _ _
              H1 H2 eq_refl H3 H4)
    as (w' & g' & r & Hrun & Hg' & _ & Hrow & _ & _ & Hcell & _).
  exists w', g'. split; [exact Hrun|]. split; [exact Hg'|].
  cbn [plan_updates] in Hrow. apply Forall_inv in Hrow.
  cbn [fst] in Hrow. subst r.
  apply (Hcell "name" "Bobby"). left. reflexivity.
Defined.

(** Repeating an update.  When the update does not assign the
    identifier column, running the same update again on the in-memory
    backend succeeds with the same message and leaves the grid exactly as
    the first run left it. *)
Theorem update_twice (w : world) (sid title identifier updates : string)
    (s : sheet) (headers : row) (data_rows : grid) (p : Plan) :
  fault w = None ->
  lookup w sid title = Some s ->
  sh_values s = headers :: data_rows ->
  rectangular headers data_rows ->
  plan_update (headers :: data_rows) identifier updates = Go p ->
  ~ In (identifier_type headers) (Py.dict_keys (plan_update_dict p)) ->
  exists w1 w2 g',
    update_sheet_record backend sid title identifier updates w
    = (inr (success_message p identifier), w1)
    /\ update_sheet_record backend sid title identifier updates w1
       = (inr (success_message p identifier), w2)
    /\ option_map sh_values (lookup w1 sid title) = Some g'
    /\ option_map sh_values (lookup w2 sid title) = Some g'.
Proof.
  intros Hfault Hl Hg Hrect Hplan Hid.
  destruct (mem_update_result w sid title identifier updates s headers
              data_rows p Hfault Hl Hg Hplan)
    as (w1 & r & Hrun & Hf1 & Hl1 & _ & Hus & Hr).
  destruct (plan_facts headers data_rows identifier updates p Hplan)
    as (c & r0 & Hc & Hd & Hne & Hf & Hr0 & Hp & Hk & Hnd).
  assert (r0 = r).
  { rewrite Hp in Hus. cbn [plan_updates] in Hus.
    destruct (plan_update_dict p) as [|kv d]; [congruence|].
    simpl in Hus. injection Hus as Hus _. unfold write_of in Hus.
    congruence. }
  subst r0.
  destruct (target_row headers data_rows r Hrect Hr) as (Hrow & Hlen & Hnth).
  set (d := plan_update_dict p) in *.
  set (cells := nth (r - 1) (headers :: data_rows) []) in *.
  assert (Hb : Forall (fun kv => 1 <= column_number headers (fst kv)
                                 <= length cells) d).
  { eapply Forall_impl; [|exact Hk]. intros kv Hin. rewrite Hlen.
    apply column_number_bounds, Hin. }
  destruct (fold_assign_cells headers d cells Hnd Hb) as (Hlc & Hin1 & Hout1).
  set (cells' := fold_left (assign_cell headers) d cells) in *.
  assert (E : r - 1 = S (r - 2)) by lia.
  assert (Hg1 : updated_grid headers r d (headers :: data_rows)
                = headers :: set_nth [] (r - 2) cells' data_rows).
  { unfold updated_grid. fold cells. fold cells'. rewrite E. reflexivity. }
  (* the identifier column is a header, and no assignment touches it *)
  pose proof (identifier_column_cases headers) as Hcases.
  rewrite Hc in Hcases. destruct Hcases as [_ Hcn].
  assert (Hidh : In (identifier_type headers) headers)
    by (eapply nth_error_In; exact Hcn).
  destruct (headers_index_known headers _ Hidh) as (i & Hi & _ & _ & Hci).
  assert (c = i).
  { unfold identifier_column in Hc. unfold identifier_type in Hi.
    destruct (Py.mem "id" headers); [congruence|].
    destruct (Py.mem "name" headers); [congruence | discriminate]. }
  subst i.
  assert (Hkeep : nth_error cells' c = nth_error cells c).
  { apply Hout1. intros kv Hin Hcol.
    rewrite Forall_forall in Hb, Hk.
    pose proof (Hb kv Hin) as Hbk.
    apply Hid. unfold Py.dict_keys. fold d.
    replace (identifier_type headers) with (fst kv).
    - apply in_map, Hin.
    - apply (column_number_injective headers); auto. lia. }
  (* the second run plans as the first *)
  assert (Hplan1 : plan_update (headers :: set_nth [] (r - 2) cells' data_rows)
                     identifier updates = Go p).
  { rewrite (plan_update_scan headers _ identifier updates c d Hc Hd Hne).
    rewrite find_row_set_nth, Hf; [congruence | lia |].
    transitivity (nth_error cells c); [exact Hkeep|].
    f_equal. exact Hnth. }
  set (s1 := {| sh_title := sh_title s; sh_row_count := sh_row_count s;
                sh_col_count := sh_col_count s;
                sh_values := updated_grid headers r d (headers :: data_rows) |})
    in *.
  destruct (mem_update_result w1 sid title identifier updates s1 headers
              (set_nth [] (r - 2) cells' data_rows) p Hf1 Hl1 Hg1 Hplan1)
    as (w2 & r2 & Hrun2 & _ & Hl2 & _ & Hus2 & _).
  assert (r2 = r).
  { rewrite Hp in Hus2. cbn [plan_updates] in Hus2. fold d in Hus2.
    destruct d as [|kv d']; [congruence|].
    simpl in Hus2. injection Hus2 as Hus2 _. unfold write_of in Hus2.
    congruence. }
  subst r2.
  exists w1, w2, (headers :: set_nth [] (r - 2) cells' data_rows).
  split; [exact Hrun|]. split; [exact Hrun2|].
  split; [rewrite Hl1; simpl; rewrite Hg1; reflexivity|].
  rewrite Hl2. simpl. f_equal. fold d.
  unfold updated_grid. rewrite E. cbn [nth set_nth].
  rewrite nth_set_nth.
  rewrite (fold_assign_fixed headers d cells' Hin1).
  rewrite set_nth_twice. reflexivity.
Qed.

Lemma update_twice_witness :
  fault (one_sheet people) = None
  /\ lookup (one_sheet people) "S" "T"
     = Some {| sh_title := "T"; sh_row_count := 1000; sh_col_count := 26;
               sh_values := people |}
  /\ rectangular ["id"; "name"] (tl people)
  /\ ~ In (identifier_type ["id"; "name"]) (Py.dict_keys [("name", "Bobby")])
  /\ exists w1 w2 g',
       update_sheet_record backend "S" "T" "2" "name=Bobby" (one_sheet people)
       = (inr "Successfully updated record with id '2' with: name=Bobby", w1)
       /\ update_sheet_record backend "S" "T" "2" "name=Bobby" w1
          = (inr "Successfully updated record with id '2' with: name=Bobby", w2)
       /\ option_map sh_values (lookup w1 "S" "T") = Some g'
       /\ option_map sh_values (lookup w2 "S" "T") = Some g'.
Proof.
  assert (H1 : fault (one_sheet people) = None) by reflexivity.
  assert (H2 : lookup (one_sheet people) "S" "T"
               = Some {| sh_title := "T"; sh_row_count := 1000;
                         sh_col_count := 26; sh_values := people |})
    by reflexivity.
  assert (H3 : rectangular ["id"; "name"] (tl people))
    by (repeat constructor).
  assert (H4 : ~ In (identifier_type ["id"; "name"])
                 (Py.dict_keys [("name", "Bobby")])).
  { simpl. intros [H|[]]. discriminate H. }
  repeat (split; [assumption|]).
  exact (update_twice _ "S" "T" "2" "name=Bobby" _ _ _
           {| plan_headers := ["id"; "name"];
              plan_update_dict := [("name", "Bobby")];
              plan_updates := [(3, 2, "Bobby")] |}
           H1 H2 eq_refl H3 eq_refl H4).
Defined.

(** An update that assigns the identifier column cannot be repeated:
    the second run no longer finds the record. *)
Example update_of_identifier_not_repeatable :
  fst (update_sheet_record backend "S" "T" "2" "id=7" (one_sheet people))
  = inr "Successfully updated record with id '2' with: id=7"
  /\ fst (update_sheet_record backend "S" "T" "2" "id=7"
            (snd (update_sheet_record backend "S" "T" "2" "id=7"
                    (one_sheet people))))
     = inr "Error: No record found with id '2'".
Proof. split; reflexivity. Qed.

End MemUpdateTheorems.

(** ** Appending and reading back *)

Section MemAppend.
Import Mem.

Lemma mem_get_sheet_content (w : world) (sid title : string) (s : sheet) :
  fault w = None ->
  lookup w sid title = Some s ->
  get_sheet_content backend sid title w
  = (format_sheet_data {| sd_error := None; sd_title := Some (sh_title s);
                          sd_data := Some (sh_values s) |}, w).
Proof.
  intros Hfault Hl.
  pose proof Hl as Hl0. unfold lookup in Hl0.
  destruct (find_book sid (books w)) as [b|] eqn:Hb; [|discriminate].
  pose proof (find_book_id _ _ _ Hb) as Hid.
  pose proof (find_sheet_title _ _ _ Hl0) as Ht.
  unfold get_sheet_content, get_sheet_data, get_sheet_data_body,
    try_catch, bind, ret, lift.
  rewrite (mem_init w Hfault).
  cbn [open_by_key worksheet get_all_values backend].
  unfold mem_open_by_key, mem_worksheet, mem_get_all_values,
    request, with_sheet, ret.
  repeat first
    [ rewrite Hfault | rewrite Hb | rewrite Hid | rewrite Hl | rewrite Ht
    | progress cbv beta iota zeta
    | progress cbn [handle ws_spreadsheet ws_title] ].
  match goal with
  | |- context [format_sheet_data ?d] =>
      destruct (format_sheet_data_returns d) as [text Htext]; rewrite Htext
  end.
  reflexivity.
Qed.

(** Rows added below a grid are lines added below its table. *)
Lemma format_sheet_data_app (t t' : option string) (rows_0 : row)
    (rows_1 rows : grid) :
  rows <> [] ->
  exists text,
    format_sheet_data {| sd_error := None; sd_title := t;
                         sd_data := Some (rows_0 :: rows_1) |} = inr text
    /\ format_sheet_data
         {| sd_error := None; sd_title := t';
            sd_data := Some ((rows_0 :: rows_1) ++ rows)%list |}
       = inr (text ++ nl ++ Py.join nl (map (Py.join " | ") rows)).
Proof.
  intros Hne. eexists. split; [reflexivity|].
  unfold format_sheet_data. cbn [sd_error sd_data app is_empty].
  f_equal. rewrite map_app.
  apply (join_app nl (_ :: _ :: map _ rows_1)); [discriminate|].
  intros H. apply map_eq_nil in H. contradiction.
Qed.

(** Appending and then reading.  On the in-memory backend, after the
    tool [add_data_to_sheet] has added rows of strings to a sheet that
    was not empty, [get_sheet_content] returns the table it returned
    before, followed by one line per added row, in order; and the tool
    reports the number of added rows. *)
Theorem content_after_append (w : world)
    (py_eval : string -> result Py.pyobj) (sid title data_str : string)
    (s : sheet) (rows_0 : row) (rows_1 rows : grid) (data : list Py.pyobj) :
  fault w = None ->
  lookup w sid title = Some s ->
  sh_values s = rows_0 :: rows_1 ->
  parse_data_str py_eval data_str = Go data ->
  all_some row_of data = Some rows ->
  rows <> [] ->
  exists before w',
    get_sheet_content backend sid title w = (inr before, w)
    /\ Server.add_data_to_sheet backend py_eval sid title data_str w
       = (inr ("Successfully added " ++ Py.str_of_nat (length data)
               ++ " records to " ++ title), w')
    /\ length data = length rows
    /\ get_sheet_content backend sid title w'
       = (inr (before ++ nl ++ Py.join nl (map (Py.join " | ") rows)), w').
Proof.
  intros Hfault Hl Hg Hparse Hrows Hne.
  destruct (format_sheet_data_app (Some (sh_title s)) (Some (sh_title s))
              rows_0 rows_1 rows Hne) as (before & Hb & Ha).
  set (w' := store w sid title (sh_values s ++ rows)%list
               (Update sid title
                  ("A" ++ Py.str_of_nat (length (sh_values s) + 1)) rows)).
  exists before, w'.
  split; [|split; [|split]].
  - rewrite (mem_get_sheet_content w sid title s Hfault Hl), Hg.
    f_equal. exact Hb.
  - rewrite add_data_to_sheet_run, (mem_init w Hfault), Hparse.
    rewrite (mem_add_data_to_sheet w sid title s data rows Hfault Hl Hrows).
    reflexivity.
  - clear - Hrows. revert rows Hrows.
    induction data as [|x data IH]; simpl; intros rows.
    + intros [= <-]. reflexivity.
    + destruct (row_of x); [|discriminate].
      destruct (all_some row_of data) as [ys|]; [|discriminate].
      intros [= <-]. simpl. rewrite (IH ys eq_refl). reflexivity.
  - rewrite (mem_get_sheet_content w' sid title
               {| sh_title := sh_title s; sh_row_count := sh_row_count s;
                  sh_col_count := sh_col_count s;
                  sh_values := (sh_values s ++ rows)%list |}).
    + cbn [sh_title sh_values]. rewrite Hg. f_equal. exact Ha.
    + exact Hfault.
    + apply lookup_store_sheet, Hl.
Qed.

Lemma content_after_append_witness :
  fault (one_sheet people) = None
  /\ parse_data_str eval_table ("3,Carol" ++ nl ++ "4,Dan")
     = Go [Py.PyList [Py.PyStr "3"; Py.PyStr "Carol"];
           Py.PyList [Py.PyStr "4"; Py.PyStr "Dan"]]
  /\ all_some row_of [Py.PyList [Py.PyStr "3"; Py.PyStr "Carol"];
                      Py.PyList [Py.PyStr "4"; Py.PyStr "Dan"]]
     = Some [["3"; "Carol"]; ["4"; "Dan"]]
  /\ exists before w',
       get_sheet_content backend "S" "T" (one_sheet people)
       = (inr before, one_sheet people)
       /\ Server.add_data_to_sheet backend eval_table "S" "T"
            ("3,Carol" ++ nl ++ "4,Dan") (one_sheet people)
          = (inr "Successfully added 2 records to T", w')
       /\ get_sheet_content backend "S" "T" w'
          = (inr (before ++ nl ++ "3 | Carol" ++ nl ++ "4 | Dan"), w').
Proof.
  assert (H1 : fault (one_sheet people) = None) by reflexivity.
  assert (H2 : parse_data_str eval_table ("3,Carol" ++ nl ++ "4,Dan")
               = Go [Py.PyList [Py.PyStr "3"; Py.PyStr "Carol"];
                     Py.PyList [Py.PyStr "4"; Py.PyStr "Dan"]])
    by reflexivity.
  assert (H3 : all_some row_of [Py.PyList [Py.PyStr "3"; Py.PyStr "Carol"];
                                Py.PyList [Py.PyStr "4"; Py.PyStr "Dan"]]
               = Some [["3"; "Carol"]; ["4"; "Dan"]]) by reflexivity.
  repeat (split; [assumption|]).
  destruct (content_after_append (one_sheet people) eval_table "S" "T"
              ("3,Carol" ++ nl ++ "4,Dan") _ ["id"; "name"] (tl people)
              [["3"; "Carol"]; ["4"; "Dan"]] _
              H1 eq_refl eq_refl H2 H3 ltac:(discriminate))
    as (before & w' & Hb & Hadd & _ & Hafter).
  exists before, w'. split; [exact Hb|]. split; [exact Hadd | exact Hafter].
Defined.

End MemAppend.

(** ** The records of [list_spreadsheets] *)

(** [list_spreadsheets] answers with one record per spreadsheet the
    backend lists, in order, each holding exactly the keys ["title"],
    ["id"] and ["url"] (so the empty list when there is none), or else
    with a single record holding exactly the key ["error"]: a failure
    is told from a result by that key. *)
Theorem list_spreadsheets_records {W} (be : Backend W) (w : W) :
  exists records w',
    list_spreadsheets be w = (inr records, w')
    /\ ((Forall (fun d => Py.dict_keys d = ["title"; "id"; "url"]) records
         /\ exists w1 sps,
              __init__ be w = (inr tt, w1)
              /\ openall be w1 = (inr sps, w')
              /\ records = map sheet_info sps
              /\ Forall2 (fun sp d => Py.dict_get d "title" = Some (sp_title sp)
                                      /\ Py.dict_get d "id" = Some (sp_id sp)
                                      /\ Py.dict_get d "url" = Some (sp_url sp))
                   sps records)
        \/ exists text, records = [[("error", text)]]).
Proof.
  unfold list_spreadsheets, get_all_spreadsheets, get_all_spreadsheets_body,
    try_catch, bind, ret.
  destruct (__init__ be w) as [[e|[]] w1] eqn:Hinit.
  - eexists; eexists; split; [reflexivity|]. right. eauto.
  - destruct (openall be w1) as [[e|sps] w2] eqn:Ho.
    + destruct (Py.is_APIError e);
        eexists; eexists; (split; [reflexivity|]); right; eauto.
    + exists (map sheet_info sps), w2. split.
      * destruct sps; reflexivity.
      * left. split.
        -- apply Forall_map, Forall_forall. reflexivity.
        -- exists w1, sps. repeat split; auto.
           clear. induction sps as [|sp sps IH]; simpl; constructor; auto.
Qed.

(** ** What an update can write *)

Lemma no_space_app (a b : string) :
  no_space (a ++ b) = no_space a && no_space b.
Proof.
  unfold no_space. induction a as [|c a IH]; simpl; [reflexivity|].
  rewrite IH. apply andb_assoc.
Qed.

Lemma dict_set_In (d : Py.dict string) (k v : string) (kv : string * string) :
  In kv (Py.dict_set d k v) -> In kv d \/ kv = (k, v).
Proof.
  induction d as [|[k' v'] d IH]; simpl.
  - intros [<-|[]]. auto.
  - destruct (String.eqb k' k) eqn:E; simpl.
    + apply String.eqb_eq in E. subst k'. intros [<-|H]; auto.
    + intros [<-|H]; auto. destruct (IH H); auto.
Qed.

Lemma assign_all_In (pairs : list (string * string)) (d : Py.dict string)
    (kv : string * string) :
  In kv (assign_all pairs d) -> In kv d \/ In kv pairs.
Proof.
  revert d. induction pairs as [|[k v] pairs IH]; simpl; intros d H; auto.
  destruct (IH _ H) as [H1|H1]; auto.
  destruct (dict_set_In d k v kv H1) as [H2| ->]; auto.
Qed.

(** Columns and values are single tokens.  In every plan, each updated
    column is a header without whitespace and without ['='], and each
    value written is free of whitespace: a value such as [John Smith]
    cannot be written, and a column whose header holds a space cannot be
    updated. *)
Theorem plan_writes_single_tokens (g : grid) (identifier updates : string)
    (p : Plan) :
  plan_update g identifier updates = Go p ->
  Forall (fun kv => In (fst kv) (hd [] g)
                    /\ no_space (fst kv) = true
                    /\ Py.contains_char "=" (fst kv) = false
                    /\ no_space (snd kv) = true)
    (plan_update_dict p)
  /\ Forall (fun u => no_space (snd u) = true
                      /\ exists col, nth_error (hd [] g) (snd (fst u) - 1)
                                     = Some col
                                     /\ no_space col = true)
       (plan_updates p).
Proof.
  intros Hplan.
  destruct (plan_update_go g identifier updates p Hplan)
    as (headers & data_rows & c & r & -> & _ & _ & Hd & _ & _ & Hw).
  apply parse_updates_keys in Hd as (Hd & Hkv & _).
  assert (Hdict : Forall (fun kv => In (fst kv) headers
                            /\ no_space (fst kv) = true
                            /\ Py.contains_char "=" (fst kv) = false
                            /\ no_space (snd kv) = true)
                    (plan_update_dict p)).
  { apply Forall_forall. intros kv Hin. rewrite Hd in Hin.
    apply assign_all_In in Hin as [[]|Hin].
    rewrite Forall_forall in Hkv. split; [apply Hkv, Hin|].
    destruct (key_values_tokens _ _ Hin) as (t & Ht & Et & Hc).
    pose proof (split_tokens updates) as Htok.
    rewrite Forall_forall in Htok. destruct (Htok t Ht) as [_ Hns].
    rewrite Et in Hns.
    change (fst kv ++ String "=" (snd kv))
      with (fst kv ++ "=" ++ snd kv) in Hns.
    rewrite !no_space_app in Hns.
    apply andb_true_iff in Hns as [H1 H2].
    apply andb_true_iff in H2 as [_ H2]. auto. }
  split; [exact Hdict|].
  rewrite Hw. apply Forall_map.
  eapply Forall_impl; [|exact Hdict].
  intros kv (Hin & Hk & _ & Hv). simpl. split; [exact Hv|].
  destruct (headers_index_known headers (fst kv) Hin) as (i & _ & Hn & _ & ->).
  exists (fst kv). replace (i + 1 - 1) with i by lia. auto.
Qed.

Lemma plan_writes_single_tokens_witness :
  plan_update [["id"; "full name"; "name"]; ["2"; "Bob B"; "Bob"]] "2"
    "name=John Smith"
  = Go {| plan_headers := ["id"; "full name"; "name"];
          plan_update_dict := [("name", "John")];
          plan_updates := [(2, 3, "John")] |}
  /\ Forall (fun u : CellWrite => no_space (snd u) = true) [(2, 3, "John")].
Proof.
  assert (H1 : plan_update [["id"; "full name"; "name"]; ["2"; "Bob B"; "Bob"]]
                 "2" "name=John Smith"
               = Go {| plan_headers := ["id"; "full name"; "name"];
                       plan_update_dict := [("name", "John")];
                       plan_updates := [(2, 3, "John")] |}) by reflexivity.
  split; [exact H1|].
  destruct (plan_writes_single_tokens _ _ _ _ H1) as [_ H].
  cbn [plan_updates] in H.
  eapply Forall_impl; [|exact H]. intros u [Hu _]. exact Hu.
Defined.
